(** * A shallow embedding of [analyzer/code_analyzer.py]

    The analyzer scans a Python source file twice: once line by line
    ([LineChecker], checks S001-S007) and once over the nodes of its
    syntax tree ([AstChecker], checks S008-S012).  Every check is a class
    with a [code], a [message] and a predicate [check]; [Analyzer.exec]
    turns a positive check into a diagnostic, [Analyzer.run] gathers the
    diagnostics of both engines, sorts them by [(lineno, code)] and prints
    their messages.

    Conventions of the embedding:
    - a Python [str] is a [string]; its characters are the code points
      below 256;
    - a Python [int] that only counts (line numbers, the blank line
      counter) is a [nat]; [str.find], which may answer [-1], is in [Z];
    - class attributes that the checks assign ([blank_lines], the
      [message] of S007-S011) live in a record [ClassAttrs] that is
      threaded through every call, in the order in which the code runs;
    - [print] appends a line to [stdout]; an uncaught exception is the
      [Raise] result;
    - [ast.parse] belongs to Python's library: it is a parameter of the
      tree engine. *)

From Stdlib Require Import String Ascii List Bool Arith ZArith Lia.
From Stdlib Require Import Permutation Sorted DecimalString.
Import ListNotations.

Open Scope string_scope.
Open Scope nat_scope.

(** ** Python's [str] operations used by the checks *)

Module Str.

Definition ord (c : ascii) : nat := nat_of_ascii c.

Definition in_range (lo hi c : ascii) : bool :=
  (ord lo <=? ord c) && (ord c <=? ord hi).

(** [str.isspace] on one character, for the code points below 256:
    TAB..CR, FS..US, SPACE, NEL and NBSP. *)
Definition isspace (c : ascii) : bool :=
  let n := ord c in
  ((9 <=? n) && (n <=? 13)) || ((28 <=? n) && (n <=? 32))
  || (n =? 133) || (n =? 160).

(** The double quote and the newline characters. *)
Definition dquote : ascii := ascii_of_nat 34.
Definition newline : ascii := ascii_of_nat 10.

Definition len (s : string) : nat := String.length s.

(** [c in chars], for a single character. *)
Fixpoint mem (c : ascii) (chars : string) : bool :=
  match chars with
  | EmptyString => false
  | String d chars' => Ascii.eqb c d || mem c chars'
  end.

Fixpoint lstrip_by (p : ascii -> bool) (s : string) : string :=
  match s with
  | EmptyString => EmptyString
  | String c s' => if p c then lstrip_by p s' else s
  end.

Fixpoint rstrip_by (p : ascii -> bool) (s : string) : string :=
  match s with
  | EmptyString => EmptyString
  | String c s' =>
      match rstrip_by p s' with
      | EmptyString => if p c then EmptyString else String c EmptyString
      | r => String c r
      end
  end.

(** [s.lstrip(chars)], [s.rstrip()] and [s.strip()]. *)
Definition lstrip_chars (chars s : string) : string :=
  lstrip_by (fun c => mem c chars) s.
Definition rstrip (s : string) : string := rstrip_by isspace s.
Definition strip (s : string) : string := rstrip_by isspace (lstrip_by isspace s).

(** [s.startswith(p)]. *)
Definition startswith (p s : string) : bool := String.prefix p s.

(** [sub in s]: [sub] occurs somewhere in [s]. *)
Fixpoint contains (sub s : string) : bool :=
  String.prefix sub s ||
  match s with
  | EmptyString => false
  | String _ s' => contains sub s'
  end.

(** [s.find(sub)]: the lowest index at which [sub] occurs, or [-1]. *)
Fixpoint find_from (sub s : string) (i : Z) : Z :=
  if String.prefix sub s then i
  else match s with
       | EmptyString => (-1)%Z
       | String _ s' => find_from sub s' (i + 1)%Z
       end.
Definition find (sub s : string) : Z := find_from sub s 0%Z.

Fixpoint drop (n : nat) (s : string) : string :=
  match n, s with
  | O, _ => s
  | S _, EmptyString => EmptyString
  | S n', String _ s' => drop n' s'
  end.

(** [s[start:]]: a negative [start] counts from the end of [s] and is
    clipped at the beginning. *)
Definition slice_from (s : string) (start : Z) : string :=
  let n := Z.of_nat (len s) in
  let start' := if (start <? 0)%Z then Z.max 0 (start + n) else start in
  drop (Z.to_nat start') s.

(** [str.lower] on one character: A-Z, and the capital letters of the
    Latin-1 block (192..222 without the multiplication sign 215). *)
Definition lower_char (c : ascii) : ascii :=
  let n := ord c in
  if ((65 <=? n) && (n <=? 90))
     || ((192 <=? n) && (n <=? 222) && negb (n =? 215))
  then ascii_of_nat (n + 32) else c.

Fixpoint lower (s : string) : string :=
  match s with
  | EmptyString => EmptyString
  | String c s' => String (lower_char c) (lower s')
  end.

(** [str(n)] for a non-negative [int]. *)
Definition of_nat (n : nat) : string := NilZero.string_of_uint (Nat.to_uint n).

End Str.

(** ** Regular expressions: [re.compile] and [re.match]

    The three patterns of the program use character classes, literals,
    sequence, alternation and repetition.  [re.match(p, s)] asks whether
    some prefix of [s] belongs to [p]; the matcher decides it with
    derivatives. *)

Module Re.

Inductive regex : Type :=
| Empty                         (* matches nothing *)
| Eps                           (* matches the empty string *)
| Class (p : ascii -> bool)     (* one character of a class *)
| Seq (r1 r2 : regex)
| Alt (r1 r2 : regex)
| Star (r : regex).

Definition Chr (c : ascii) : regex := Class (Ascii.eqb c).
Definition Plus (r : regex) : regex := Seq r (Star r).

Fixpoint Lit (s : string) : regex :=
  match s with
  | EmptyString => Eps
  | String c s' => Seq (Chr c) (Lit s')
  end.

Fixpoint nullable (r : regex) : bool :=
  match r with
  | Empty => false
  | Eps => true
  | Class _ => false
  | Seq r1 r2 => nullable r1 && nullable r2
  | Alt r1 r2 => nullable r1 || nullable r2
  | Star _ => true
  end.

Fixpoint deriv (c : ascii) (r : regex) : regex :=
  match r with
  | Empty => Empty
  | Eps => Empty
  | Class p => if p c then Eps else Empty
  | Seq r1 r2 =>
      if nullable r1 then Alt (Seq (deriv c r1) r2) (deriv c r2)
      else Seq (deriv c r1) r2
  | Alt r1 r2 => Alt (deriv c r1) (deriv c r2)
  | Star r1 => Seq (deriv c r1) (Star r1)
  end.

(** [re.match(r, s) is not None]. *)
Fixpoint is_match (r : regex) (s : string) : bool :=
  nullable r ||
  match s with
  | EmptyString => false
  | String c s' => is_match (deriv c r) s'
  end.

(** The class [\w] on the code points below 256: whatever [str.isalnum]
    accepts, and the underscore. *)
Definition word (c : ascii) : bool :=
  let n := Str.ord c in
  Str.in_range "a" "z" c || Str.in_range "A" "Z" c || Str.in_range "0" "9" c
  || Ascii.eqb c "_"
  || (n =? 170) || (n =? 178) || (n =? 179) || (n =? 181)
  || (n =? 185) || (n =? 186) || ((188 <=? n) && (n <=? 190))
  || ((192 <=? n) && negb (n =? 215) && negb (n =? 247)).

End Re.

(** ** Class attributes, diagnostics and the abstract class [Analyzer] *)

(** The class attributes that some [check] assigns.  They belong to the
    classes, not to a run: they are created once, when the module is
    loaded, and live as long as the interpreter. *)
Record ClassAttrs : Type := {
  blank_lines : nat;        (* CheckTooManyBlankLines.blank_lines *)
  message_S007 : string;    (* CheckTooManySpacesAfterConstructionName.message *)
  message_S008 : string;    (* CheckClassNameShouldBeWrittenInCamelCase.message *)
  message_S009 : string;    (* CheckFunctionNameShouldBeWrittenInSnakeCase.message *)
  message_S010 : string;    (* CheckArgumentNameShouldBeWrittenInSnakeCase.message *)
  message_S011 : string     (* CheckVariableShouldBeWrittenInSnakeCase.message *)
}.

(** The attributes as the class bodies initialise them. *)
Definition initial_attrs : ClassAttrs :=
  {| blank_lines := 0; message_S007 := ""; message_S008 := "";
     message_S009 := ""; message_S010 := ""; message_S011 := "" |}.

Definition set_blank_lines (n : nat) (a : ClassAttrs) : ClassAttrs :=
  {| blank_lines := n; message_S007 := message_S007 a;
     message_S008 := message_S008 a; message_S009 := message_S009 a;
     message_S010 := message_S010 a; message_S011 := message_S011 a |}.
Definition set_message_S007 (m : string) (a : ClassAttrs) : ClassAttrs :=
  {| blank_lines := blank_lines a; message_S007 := m;
     message_S008 := message_S008 a; message_S009 := message_S009 a;
     message_S010 := message_S010 a; message_S011 := message_S011 a |}.
Definition set_message_S008 (m : string) (a : ClassAttrs) : ClassAttrs :=
  {| blank_lines := blank_lines a; message_S007 := message_S007 a;
     message_S008 := m; message_S009 := message_S009 a;
     message_S010 := message_S010 a; message_S011 := message_S011 a |}.
Definition set_message_S009 (m : string) (a : ClassAttrs) : ClassAttrs :=
  {| blank_lines := blank_lines a; message_S007 := message_S007 a;
     message_S008 := message_S008 a; message_S009 := m;
     message_S010 := message_S010 a; message_S011 := message_S011 a |}.
Definition set_message_S010 (m : string) (a : ClassAttrs) : ClassAttrs :=
  {| blank_lines := blank_lines a; message_S007 := message_S007 a;
     message_S008 := message_S008 a; message_S009 := message_S009 a;
     message_S010 := m; message_S011 := message_S011 a |}.
Definition set_message_S011 (m : string) (a : ClassAttrs) : ClassAttrs :=
  {| blank_lines := blank_lines a; message_S007 := message_S007 a;
     message_S008 := message_S008 a; message_S009 := message_S009 a;
     message_S010 := message_S010 a; message_S011 := m |}.

(** Code that reads and assigns class attributes. *)
Definition State (A : Type) : Type := ClassAttrs -> A * ClassAttrs.

Definition ret {A : Type} (a : A) : State A := fun st => (a, st).
Definition bind {A B : Type} (m : State A) (k : A -> State B) : State B :=
  fun st => let (a, st') := m st in k a st'.
Definition get : State ClassAttrs := fun st => (st, st).
Definition modify (f : ClassAttrs -> ClassAttrs) : State unit :=
  fun st => (tt, f st).

Notation "x <- m ;; k" := (bind m (fun x => k))
  (at level 61, m at next level, right associativity).
Notation "m ;;; k" := (bind m (fun _ => k))
  (at level 61, right associativity).

(** The dictionary that [Analyzer.exec] returns. *)
Module Result.
Record t : Type := make {
  lineno : nat;
  code : string;
  message : string
}.
End Result.

(** An uncaught exception, and the outcome of code that may raise. *)
Inductive exn : Type := SyntaxError.

Inductive result (A : Type) : Type :=
| Ok (a : A)
| Raise (e : exn).
Arguments Ok {A} _.
Arguments Raise {A} _.

(** A path together with the text that [open(path)] reads. *)
Record SourceFile : Type := {
  path : string;
  text : string
}.

(** What a run can change: the class attributes and standard output,
    one [string] for each [print]. *)
Record World : Type := {
  attrs : ClassAttrs;
  stdout : list string
}.

Module Analyzer.

(** [re.compile(r'[a-z0-9_]\w*')] and [re.compile(r'[A-Z0-9]\w*')]. *)
Definition PATTERN_NOT_CAMEL_CASE : Re.regex :=
  Re.Seq
    (Re.Class (fun c => Str.in_range "a" "z" c || Str.in_range "0" "9" c
                        || Ascii.eqb c "_"))
    (Re.Star (Re.Class Re.word)).
Definition PATTERN_NOT_SNAKE_CASE : Re.regex :=
  Re.Seq
    (Re.Class (fun c => Str.in_range "A" "Z" c || Str.in_range "0" "9" c))
    (Re.Star (Re.Class Re.word)).

(** A concrete subclass of a checker: its [code], its [message] (a class
    attribute, read when the diagnostic is built) and its [check]. *)
Record Class (U : Type) : Type := {
  code : string;
  message : ClassAttrs -> string;
  check : U -> State bool
}.
Arguments code {U} _.
Arguments message {U} _ _.
Arguments check {U} _ _ _.

(** [cls.exec(path, obj, lineno)]: [None] when the check is negative. *)
Definition exec {U : Type} (cls : Class U) (path : string) (obj : U)
    (lineno : nat) : State (option Result.t) :=
  b <- check cls obj ;;
  if b then
    st <- get ;;
    ret (Some {| Result.lineno := lineno;
                 Result.code := code cls;
                 Result.message :=
                   path ++ ": Line " ++ Str.of_nat lineno ++ ": "
                   ++ code cls ++ " " ++ message cls st |})
  else ret None.

(** The inner loop of both engines:
    [for check in cls.__subclasses__(): ... results.append(result)]. *)
Fixpoint exec_all {U : Type} (checks : list (Class U)) (path : string)
    (obj : U) (lineno : nat) : State (list Result.t) :=
  match checks with
  | [] => ret []
  | cls :: checks' =>
      r <- exec cls path obj lineno ;;
      rs <- exec_all checks' path obj lineno ;;
      ret (match r with Some d => d :: rs | None => rs end)
  end.

(** The order of the keys [(r['lineno'], r['code'])]: tuples compare
    field by field, strings by code points. *)
Definition key_ltb (r1 r2 : Result.t) : bool :=
  (Result.lineno r1 <? Result.lineno r2)
  || ((Result.lineno r1 =? Result.lineno r2)
      && String.ltb (Result.code r1) (Result.code r2)).

(** [sorted(results, key=...)].  Python's sort is stable: an element
    goes before the first one that is not smaller than it among those
    that followed it. *)
Fixpoint insert (r : Result.t) (l : list Result.t) : list Result.t :=
  match l with
  | [] => [r]
  | r' :: l' => if key_ltb r' r then r' :: insert r l' else r :: l
  end.

Fixpoint sorted (results : list Result.t) : list Result.t :=
  match results with
  | [] => []
  | r :: results' => insert r (sorted results')
  end.

(** A checker class, seen through its [execute_checks(file, code)].
    [code] is the text of the file: the file object is fresh for the
    first checker and rewound by [code.seek(0)] for the next ones. *)
Definition Checker : Type :=
  string -> string -> State (result (list Result.t)).

(** The loop [for checker in cls.__subclasses__()] of [run]. *)
Fixpoint collect (checkers : list Checker) (file code : string)
    : State (result (list Result.t)) :=
  match checkers with
  | [] => ret (Ok [])
  | checker :: checkers' =>
      r <- checker file code ;;
      match r with
      | Raise e => ret (Raise e)
      | Ok rs =>
          r' <- collect checkers' file code ;;
          match r' with
          | Raise e => ret (Raise e)
          | Ok rs' => ret (Ok (rs ++ rs')%list)
          end
      end
  end.

(** [cls.run(file)], for the checkers that [cls.__subclasses__()]
    lists. *)
Definition run (checkers : list Checker) (file : SourceFile) (w : World)
    : result unit * World :=
  let (r, st) := collect checkers (path file) (text file) (attrs w) in
  match r with
  | Raise e => (Raise e, {| attrs := st; stdout := stdout w |})
  | Ok results =>
      (Ok tt,
       {| attrs := st;
          stdout := (stdout w ++ map Result.message (sorted results))%list |})
  end.

End Analyzer.

Module LineChecker.

(** The lines that iterating over the file object yields: each ends
    with its newline, except possibly the last. *)
Fixpoint readlines (code : string) : list string :=
  match code with
  | EmptyString => []
  | String c code' =>
      if Ascii.eqb c Str.newline then String c EmptyString :: readlines code'
      else match readlines code' with
           | [] => [String c EmptyString]
           | line :: lines => String c line :: lines
           end
  end.

(** [for i, line in enumerate(code, start=1)], from line number [i]. *)
Fixpoint scan (checks : list (Analyzer.Class string)) (file : string)
    (lines : list string) (i : nat) : State (list Result.t) :=
  match lines with
  | [] => ret []
  | line :: lines' =>
      rs <- Analyzer.exec_all checks file line i ;;
      rs' <- scan checks file lines' (S i) ;;
      ret (rs ++ rs')%list
  end.

Definition execute_checks (checks : list (Analyzer.Class string))
    : Analyzer.Checker :=
  fun file code =>
    rs <- scan checks file (readlines code) 1 ;;
    ret (Ok rs).

End LineChecker.

(** ** The checks on lines (S001-S007)

    A line is handed to the checks as the file iterator yields it, with
    its newline.  A check without class state is a function to [bool]. *)

Module CheckTooLong.
Definition code : string := "S001".
Definition message : string := "Too long".
Definition check (line : string) : bool :=
  79 <? Str.len (Str.rstrip line).
End CheckTooLong.

Module CheckIndentationIsNotAMultipleOfFour.
Definition code : string := "S002".
Definition message : string := "Indentation is not a multiple of four".
Definition check (line : string) : bool :=
  let spaces := Str.len line - Str.len (Str.lstrip_chars " " line) in
  negb (spaces mod 4 =? 0).
End CheckIndentationIsNotAMultipleOfFour.

Module CheckUnnecessarySemicolon.
Definition code : string := "S003".
Definition message : string := "Unnecessary semicolon".

(** One turn of the [for char in line] loop on the two flags: the
    assignments to [double_quotes] and [single_quotes], in this order. *)
Definition toggle (char : ascii) (q : bool * bool) : bool * bool :=
  let '(single_quotes, double_quotes) := q in
  let double_quotes :=
    if Ascii.eqb char Str.dquote && negb single_quotes
    then negb double_quotes else double_quotes in
  let single_quotes :=
    if Ascii.eqb char "'" && negb double_quotes
    then negb single_quotes else single_quotes in
  (single_quotes, double_quotes).

(** The loop from a given state of the flags: [break] at a hash,
    [return True] at a semicolon met with both flags down. *)
Fixpoint scan (line : string) (q : bool * bool) : bool :=
  match line with
  | EmptyString => false
  | String char rest =>
      if Ascii.eqb char "#" then false
      else
        let q' := toggle char q in
        if Ascii.eqb char ";" && negb (fst q' || snd q') then true
        else scan rest q'
  end.

Definition check (line : string) : bool := scan line (false, false).
End CheckUnnecessarySemicolon.

Module CheckLessThanTwoSpacesBeforeInlineComments.
Definition code : string := "S004".
Definition message : string :=
  "At least two spaces required before inline comments".
Definition check (line : string) : bool :=
  negb (Str.startswith "#" line) && Str.contains "#" line
  && negb (Str.contains "  #" line).
End CheckLessThanTwoSpacesBeforeInlineComments.

Module CheckTodoFound.
Definition code : string := "S005".
Definition message : string := "TODO found".
Definition check (line : string) : bool :=
  let start := Str.find "#" line in
  let comment := Str.slice_from line start in
  Str.contains "todo" (Str.lower comment).
End CheckTodoFound.

Module CheckTooManyBlankLines.
Definition code : string := "S006".
Definition message : string := "Too many blank lines".
Definition check (line : string) : State bool :=
  st <- get ;;
  if String.eqb (Str.strip line) "" then
    modify (set_blank_lines (blank_lines st + 1)) ;;;
    ret false
  else
    let too_many_blanks := 2 <? blank_lines st in
    modify (set_blank_lines 0) ;;;
    ret too_many_blanks.
End CheckTooManyBlankLines.

Module CheckTooManySpacesAfterConstructionName.
Definition code : string := "S007".
Definition message_template (name : string) : string :=
  "Too many spaces after '" ++ name ++ "'".

Definition spaces : Re.regex := Re.Star (Re.Chr " ").

(** [re.compile(r' *(class|def)  +')]. *)
Definition pattern : Re.regex :=
  Re.Seq spaces
    (Re.Seq (Re.Alt (Re.Lit "class") (Re.Lit "def"))
       (Re.Seq (Re.Chr " ") (Re.Plus (Re.Chr " ")))).

(** [match.group(1)] of a successful match: the two alternatives start
    with different letters, so the group holds [class] exactly when
    [class] follows the leading spaces. *)
Definition group1 (line : string) : string :=
  if Re.is_match (Re.Seq spaces (Re.Lit "class")) line
  then "class" else "def".

Definition check (line : string) : State bool :=
  if Re.is_match pattern line then
    modify (set_message_S007 (message_template (group1 line))) ;;;
    ret true
  else ret false.
End CheckTooManySpacesAfterConstructionName.

(** ** Syntax trees: the classes of Python's [ast] module

    One type holds every node.  The classes that the checks inspect have
    a constructor with their fields, in the order of [_fields]; every
    other class is one of [ast_stmt], [ast_expr] or [ast_AST], according
    to its base class, with its child nodes in field order.  The first
    [nat] of a statement or expression is its [lineno]. *)

Record arg_ (N : Type) : Type := {
  arg_lineno : nat;
  arg : string;
  annotation : option N
}.
Arguments arg_lineno {N} _.
Arguments arg {N} _.
Arguments annotation {N} _.

Record arguments_ (N : Type) : Type := {
  posonlyargs : list (arg_ N);
  args : list (arg_ N);
  vararg : option (arg_ N);
  kwonlyargs : list (arg_ N);
  kw_defaults : list (option N);
  kwarg : option (arg_ N);
  defaults : list N
}.
Arguments posonlyargs {N} _.
Arguments args {N} _.
Arguments vararg {N} _.
Arguments kwonlyargs {N} _.
Arguments kw_defaults {N} _.
Arguments kwarg {N} _.
Arguments defaults {N} _.

#[warnings="-register-all"]
Inductive node : Type :=
| ast_Module (body : list node)
| ast_ClassDef (lineno : nat) (name : string)
    (bases keywords body decorator_list : list node)
| ast_FunctionDef (lineno : nat) (name : string) (a : arguments_ node)
    (body decorator_list : list node) (returns : option node)
| ast_AsyncFunctionDef (lineno : nat) (name : string) (a : arguments_ node)
    (body decorator_list : list node) (returns : option node)
| ast_Assign (lineno : nat) (target0 : node) (targets : list node)
    (value : node)
| ast_AugAssign (lineno : nat) (target op value : node)
| ast_AnnAssign (lineno : nat) (target annotation : node)
    (value : option node)
| ast_stmt (lineno : nat) (fields : list node)
| ast_Name (lineno : nat) (id : string) (ctx : node)
| ast_Dict (lineno : nat) (keys : list (option node)) (values : list node)
| ast_List (lineno : nat) (elts : list node) (ctx : node)
| ast_Set (lineno : nat) (elts : list node)
| ast_Tuple (lineno : nat) (elts : list node) (ctx : node)
| ast_expr (lineno : nat) (fields : list node)
| ast_arguments (a : arguments_ node)
| ast_arg (a : arg_ node)
| ast_AST (fields : list node).

Module Ast.

Definition of_option {A : Type} (o : option A) : list A :=
  match o with Some x => [x] | None => [] end.

(** The items of a list field that are nodes ([None] is skipped). *)
Definition somes {A : Type} (l : list (option A)) : list A :=
  flat_map of_option l.

Definition arguments_children (a : arguments_ node) : list node :=
  map ast_arg (posonlyargs a) ++ map ast_arg (args a)
  ++ map ast_arg (of_option (vararg a)) ++ map ast_arg (kwonlyargs a)
  ++ somes (kw_defaults a) ++ map ast_arg (of_option (kwarg a))
  ++ defaults a.

(** [ast.iter_child_nodes]. *)
Definition iter_child_nodes (n : node) : list node :=
  match n with
  | ast_Module body => body
  | ast_ClassDef _ _ bases keywords body decorator_list =>
      bases ++ keywords ++ body ++ decorator_list
  | ast_FunctionDef _ _ a body decorator_list returns
  | ast_AsyncFunctionDef _ _ a body decorator_list returns =>
      ast_arguments a :: body ++ decorator_list ++ of_option returns
  | ast_Assign _ target0 targets value => target0 :: targets ++ [value]
  | ast_AugAssign _ target op value => [target; op; value]
  | ast_AnnAssign _ target annotation value =>
      target :: annotation :: of_option value
  | ast_stmt _ fields => fields
  | ast_Name _ _ ctx => [ctx]
  | ast_Dict _ keys values => somes keys ++ values
  | ast_List _ elts ctx => elts ++ [ctx]
  | ast_Set _ elts => elts
  | ast_Tuple _ elts ctx => elts ++ [ctx]
  | ast_expr _ fields => fields
  | ast_arguments a => arguments_children a
  | ast_arg a => of_option (annotation a)
  | ast_AST fields => fields
  end.

(** [isinstance(node, (ast.expr, ast.stmt))]. *)
Definition is_stmt (n : node) : bool :=
  match n with
  | ast_ClassDef _ _ _ _ _ _ | ast_FunctionDef _ _ _ _ _ _
  | ast_AsyncFunctionDef _ _ _ _ _ _ | ast_Assign _ _ _ _
  | ast_AugAssign _ _ _ _ | ast_AnnAssign _ _ _ _ | ast_stmt _ _ => true
  | _ => false
  end.

Definition is_expr (n : node) : bool :=
  match n with
  | ast_Name _ _ _ | ast_Dict _ _ _ | ast_List _ _ _ | ast_Set _ _
  | ast_Tuple _ _ _ | ast_expr _ _ => true
  | _ => false
  end.

(** [node.lineno], read by the engine on statements and expressions
    only. *)
Definition lineno (n : node) : nat :=
  match n with
  | ast_ClassDef l _ _ _ _ _ | ast_FunctionDef l _ _ _ _ _
  | ast_AsyncFunctionDef l _ _ _ _ _ | ast_Assign l _ _ _
  | ast_AugAssign l _ _ _ | ast_AnnAssign l _ _ _ | ast_stmt l _
  | ast_Name l _ _ | ast_Dict l _ _ | ast_List l _ _ | ast_Set l _
  | ast_Tuple l _ _ | ast_expr l _ => l
  | ast_arg a => arg_lineno a
  | ast_Module _ | ast_arguments _ | ast_AST _ => 0
  end.

(** The number of nodes of a tree. *)
Fixpoint size (n : node) : nat :=
  let sizes := fun l : list node => list_sum (map size l) in
  let osize := fun o : option node =>
    match o with Some x => size x | None => 0 end in
  let osizes := fun l : list (option node) => list_sum (map osize l) in
  let asize := fun a : arg_ node => S (osize (annotation a)) in
  let asizes := fun l : list (arg_ node) => list_sum (map asize l) in
  let oasize := fun o : option (arg_ node) =>
    match o with Some a => asize a | None => 0 end in
  let argsize := fun a : arguments_ node =>
    asizes (posonlyargs a) + asizes (args a) + oasize (vararg a)
    + asizes (kwonlyargs a) + osizes (kw_defaults a) + oasize (kwarg a)
    + sizes (defaults a) in
  match n with
  | ast_Module body => S (sizes body)
  | ast_ClassDef _ _ bases keywords body decorator_list =>
      S (sizes bases + sizes keywords + sizes body + sizes decorator_list)
  | ast_FunctionDef _ _ a body decorator_list returns
  | ast_AsyncFunctionDef _ _ a body decorator_list returns =>
      S (S (argsize a) + sizes body + sizes decorator_list + osize returns)
  | ast_Assign _ target0 targets value =>
      S (size target0 + sizes targets + size value)
  | ast_AugAssign _ target op value =>
      S (size target + size op + size value)
  | ast_AnnAssign _ target annotation value =>
      S (size target + size annotation + osize value)
  | ast_stmt _ fields => S (sizes fields)
  | ast_Name _ _ ctx => S (size ctx)
  | ast_Dict _ keys values => S (osizes keys + sizes values)
  | ast_List _ elts ctx => S (sizes elts + size ctx)
  | ast_Set _ elts => S (sizes elts)
  | ast_Tuple _ elts ctx => S (sizes elts + size ctx)
  | ast_expr _ fields => S (sizes fields)
  | ast_arguments a => S (argsize a)
  | ast_arg a => asize a
  | ast_AST fields => S (sizes fields)
  end.

Definition sizes (l : list node) : nat := list_sum (map size l).

(** [ast.walk]: the nodes of the tree, breadth first.  [todo] is the
    deque; each turn pops its first node, appends the children of that
    node and yields it.  [fuel] bounds the number of turns. *)
Fixpoint walk_queue (fuel : nat) (todo : list node) : list node :=
  match fuel, todo with
  | S fuel', n :: rest => n :: walk_queue fuel' (rest ++ iter_child_nodes n)
  | _, _ => []
  end.

Definition walk (tree : node) : list node := walk_queue (size tree) [tree].

End Ast.

(** ** The tree engine and the checks on nodes (S008-S012) *)

Module AstChecker.

(** [for node in ast.walk(tree)], with the running [lineno]. *)
Fixpoint visit (checks : list (Analyzer.Class node)) (file : string)
    (nodes : list node) (lineno : nat) : State (list Result.t) :=
  match nodes with
  | [] => ret []
  | n :: nodes' =>
      let lineno :=
        if Ast.is_expr n || Ast.is_stmt n then Ast.lineno n else lineno in
      rs <- Analyzer.exec_all checks file n lineno ;;
      rs' <- visit checks file nodes' lineno ;;
      ret (rs ++ rs')%list
  end.

(** [ast_parse] stands for [ast.parse]: the tree of a text, or the
    exception that the text raises. *)
Definition execute_checks (ast_parse : string -> result node)
    (checks : list (Analyzer.Class node)) : Analyzer.Checker :=
  fun file code =>
    match ast_parse code with
    | Raise e => ret (Raise e)
    | Ok tree =>
        rs <- visit checks file (Ast.walk tree) 0 ;;
        ret (Ok rs)
    end.

End AstChecker.

Module CheckClassNameShouldBeWrittenInCamelCase.
Definition code : string := "S008".
Definition message_template (name : string) : string :=
  "Class name '" ++ name ++ "' should use CamelCase".
Definition check (n : node) : State bool :=
  match n with
  | ast_ClassDef _ name _ _ _ _ =>
      if Re.is_match Analyzer.PATTERN_NOT_CAMEL_CASE name then
        modify (set_message_S008 (message_template name)) ;;;
        ret true
      else ret false
  | _ => ret false
  end.
End CheckClassNameShouldBeWrittenInCamelCase.

Module CheckFunctionNameShouldBeWrittenInSnakeCase.
Definition code : string := "S009".
Definition message_template (name : string) : string :=
  "Function name '" ++ name ++ "' should use snake_case".
Definition check (n : node) : State bool :=
  match n with
  | ast_FunctionDef _ name _ _ _ _ | ast_AsyncFunctionDef _ name _ _ _ _ =>
      if Re.is_match Analyzer.PATTERN_NOT_SNAKE_CASE name then
        modify (set_message_S009 (message_template name)) ;;;
        ret true
      else ret false
  | _ => ret false
  end.
End CheckFunctionNameShouldBeWrittenInSnakeCase.

Module CheckArgumentNameShouldBeWrittenInSnakeCase.
Definition code : string := "S010".
Definition message_template (name : string) : string :=
  "Argument name '" ++ name ++ "' should be snake_case".

(** [for arg in node.args.args], up to the first name that matches. *)
Fixpoint first_match (l : list (arg_ node)) : option string :=
  match l with
  | [] => None
  | a :: l' =>
      if Re.is_match Analyzer.PATTERN_NOT_SNAKE_CASE (arg a)
      then Some (arg a) else first_match l'
  end.

Definition check (n : node) : State bool :=
  match n with
  | ast_FunctionDef _ _ a _ _ _ | ast_AsyncFunctionDef _ _ a _ _ _ =>
      match first_match (args a) with
      | Some name =>
          modify (set_message_S010 (message_template name)) ;;;
          ret true
      | None => ret false
      end
  | _ => ret false
  end.
End CheckArgumentNameShouldBeWrittenInSnakeCase.

Module CheckVariableShouldBeWrittenInSnakeCase.
Definition code : string := "S011".
Definition message_template (name : string) : string :=
  "Variable '" ++ name ++ "' in function should be snake_case".

Definition target_of (n : node) : option node :=
  match n with
  | ast_Assign _ target0 _ _ => Some target0
  | ast_AugAssign _ target _ _ | ast_AnnAssign _ target _ _ => Some target
  | _ => None
  end.

Definition check (n : node) : State bool :=
  match target_of n with
  | Some (ast_Name _ id _) =>
      if Re.is_match Analyzer.PATTERN_NOT_SNAKE_CASE id then
        modify (set_message_S011 (message_template id)) ;;;
        ret true
      else ret false
  | _ => ret false
  end.
End CheckVariableShouldBeWrittenInSnakeCase.

Module CheckDefaultArgumentValueIsMutable.
Definition code : string := "S012".
Definition message : string := "Default argument value is mutable".

(** [isinstance(arg, (ast.Dict, ast.List, ast.Set))]. *)
Definition mutable (n : node) : bool :=
  match n with
  | ast_Dict _ _ _ | ast_List _ _ _ | ast_Set _ _ => true
  | _ => false
  end.

Definition check (n : node) : bool :=
  match n with
  | ast_FunctionDef _ _ a _ _ _ | ast_AsyncFunctionDef _ _ a _ _ _ =>
      existsb mutable (defaults a)
  | _ => false
  end.
End CheckDefaultArgumentValueIsMutable.

(** ** The classes, as [__subclasses__()] lists them: in the order of
    their definition *)

Definition stateless {U : Type} (code message : string) (check : U -> bool)
    : Analyzer.Class U :=
  {| Analyzer.code := code;
     Analyzer.message := fun _ => message;
     Analyzer.check := fun obj => ret (check obj) |}.

Definition LineChecker_subclasses : list (Analyzer.Class string) :=
  [ stateless CheckTooLong.code CheckTooLong.message CheckTooLong.check;
    stateless CheckIndentationIsNotAMultipleOfFour.code
      CheckIndentationIsNotAMultipleOfFour.message
      CheckIndentationIsNotAMultipleOfFour.check;
    stateless CheckUnnecessarySemicolon.code
      CheckUnnecessarySemicolon.message CheckUnnecessarySemicolon.check;
    stateless CheckLessThanTwoSpacesBeforeInlineComments.code
      CheckLessThanTwoSpacesBeforeInlineComments.message
      CheckLessThanTwoSpacesBeforeInlineComments.check;
    stateless CheckTodoFound.code CheckTodoFound.message CheckTodoFound.check;
    {| Analyzer.code := CheckTooManyBlankLines.code;
       Analyzer.message := fun _ => CheckTooManyBlankLines.message;
       Analyzer.check := CheckTooManyBlankLines.check |};
    {| Analyzer.code := CheckTooManySpacesAfterConstructionName.code;
       Analyzer.message := message_S007;
       Analyzer.check := CheckTooManySpacesAfterConstructionName.check |} ].

Definition AstChecker_subclasses : list (Analyzer.Class node) :=
  [ {| Analyzer.code := CheckClassNameShouldBeWrittenInCamelCase.code;
       Analyzer.message := message_S008;
       Analyzer.check := CheckClassNameShouldBeWrittenInCamelCase.check |};
    {| Analyzer.code := CheckFunctionNameShouldBeWrittenInSnakeCase.code;
       Analyzer.message := message_S009;
       Analyzer.check := CheckFunctionNameShouldBeWrittenInSnakeCase.check |};
    {| Analyzer.code := CheckArgumentNameShouldBeWrittenInSnakeCase.code;
       Analyzer.message := message_S010;
       Analyzer.check := CheckArgumentNameShouldBeWrittenInSnakeCase.check |};
    {| Analyzer.code := CheckVariableShouldBeWrittenInSnakeCase.code;
       Analyzer.message := message_S011;
       Analyzer.check := CheckVariableShouldBeWrittenInSnakeCase.check |};
    stateless CheckDefaultArgumentValueIsMutable.code
      CheckDefaultArgumentValueIsMutable.message
      CheckDefaultArgumentValueIsMutable.check ].

Definition Analyzer_subclasses (ast_parse : string -> result node)
    : list Analyzer.Checker :=
  [ LineChecker.execute_checks LineChecker_subclasses;
    AstChecker.execute_checks ast_parse AstChecker_subclasses ].

(** [Analyzer.run(file)]. *)
Definition Analyzer_run (ast_parse : string -> result node)
    : SourceFile -> World -> result unit * World :=
  Analyzer.run (Analyzer_subclasses ast_parse).

(** ** [main] *)

(** What [sys.argv[1]] names: a file with its [suffix], a directory
    with the files that [sorted(path.glob('**/*.py'))] lists, or
    neither. *)
Inductive Target : Type :=
| IsFile (suffix : string) (file : SourceFile)
| IsDir (found : list SourceFile)
| Neither.

(** [for file in ...: Analyzer.run(file)]: an exception ends the loop. *)
Fixpoint run_all (ast_parse : string -> result node)
    (files : list SourceFile) (w : World) : result unit * World :=
  match files with
  | [] => (Ok tt, w)
  | file :: files' =>
      match Analyzer_run ast_parse file w with
      | (Ok _, w') => run_all ast_parse files' w'
      | (Raise e, w') => (Raise e, w')
      end
  end.

Definition main (ast_parse : string -> result node) (target : Target)
    (w : World) : result unit * World :=
  match target with
  | IsFile suffix file =>
      if String.eqb suffix ".py" then Analyzer_run ast_parse file w
      else (Ok tt, w)
  | IsDir found => run_all ast_parse found w
  | Neither => (Ok tt, w)
  end.

(** The world of a fresh interpreter. *)
Definition initial_world : World :=
  {| attrs := initial_attrs; stdout := [] |}.


(** * The vocabulary of the properties *)

(** ** S002: indentation *)

Module S002.

(** The count of the leading space characters of a line. *)
Fixpoint leading_spaces (line : string) : nat :=
  match line with
  | EmptyString => 0
  | String c rest => if Ascii.eqb c " " then S (leading_spaces rest) else 0
  end.

(** A line that consists entirely of whitespace. *)
Fixpoint all_whitespace (line : string) : bool :=
  match line with
  | EmptyString => true
  | String c rest => Str.isspace c && all_whitespace rest
  end.

End S002.

(** ** S003: semicolons *)

Module S003.
Import CheckUnnecessarySemicolon.

(** The quote flags after the characters of [pre], from the flags [q]. *)
Fixpoint quotes (pre : string) (q : bool * bool) : bool * bool :=
  match pre with
  | EmptyString => q
  | String c rest => quotes rest (toggle c q)
  end.

(** A semicolon of [line] that stands outside the quoted spans and
    before any hash, when the scan starts with the flags [q]. *)
Definition free_semicolon (line : string) (q : bool * bool) : Prop :=
  exists pre post,
    line = pre ++ String ";" post
    /\ Str.mem "#" pre = false
    /\ quotes pre q = (false, false).

(** Quoted spans, read off the characters alone: a quote character that
    stands outside every span opens a span of its kind, the next quote
    character of the same kind closes it, and whatever stands in between
    belongs to the span. *)
Inductive span : Type := Outside | InSingle | InDouble.

Definition step (c : ascii) (s : span) : span :=
  match s with
  | Outside =>
      if Ascii.eqb c "'" then InSingle
      else if Ascii.eqb c Str.dquote then InDouble else Outside
  | InSingle => if Ascii.eqb c "'" then Outside else InSingle
  | InDouble => if Ascii.eqb c Str.dquote then Outside else InDouble
  end.

Fixpoint span_after (pre : string) (s : span) : span :=
  match pre with
  | EmptyString => s
  | String c rest => span_after rest (step c s)
  end.

(** What the loop of [check] looks for: a semicolon outside the quoted
    spans with no hash character at all before it, be that hash inside
    a quoted span or outside. *)
Definition semicolon_before_any_hash (line : string) : Prop :=
  exists pre post,
    line = pre ++ String ";" post
    /\ Str.mem "#" pre = false
    /\ span_after pre Outside = Outside.

(** A text holds the start of a comment: a hash that stands outside the
    quoted spans. *)
Definition holds_comment_start (pre : string) : Prop :=
  exists p q,
    pre = p ++ String "#" q /\ span_after p Outside = Outside.

(** The trigger as the catalogue words it: a semicolon outside the
    quoted spans and before any comment start. *)
Definition semicolon_before_comment (line : string) : Prop :=
  exists pre post,
    line = pre ++ String ";" post
    /\ span_after pre Outside = Outside
    /\ ~ holds_comment_start pre.

(** The two flags of the loop, for each state of the spans. *)
Definition flags (s : span) : bool * bool :=
  match s with
  | Outside => (false, false)
  | InSingle => (true, false)
  | InDouble => (false, true)
  end.

End S003.

(** ** S004: spaces before an inline comment *)

Module S004.

(** The two characters just before position [i] are both spaces. *)
Definition two_spaces_before (line : string) (i : nat) : Prop :=
  exists j, i = S (S j) /\ String.get j line = Some " "%char
            /\ String.get (S j) line = Some " "%char.

(** The trigger as the catalogue words it: some hash that is not at
    column 0 and whose two preceding characters are not both spaces. *)
Definition some_hash_badly_spaced (line : string) : Prop :=
  exists i, 0 < i /\ String.get i line = Some "#"%char
            /\ ~ two_spaces_before line i.

(** What the three tests of [check] say about the positions of a line. *)
Definition no_hash_after_two_spaces (line : string) : Prop :=
  forall i, String.get (S (S i)) line = Some "#"%char ->
            ~ (String.get i line = Some " "%char
               /\ String.get (S i) line = Some " "%char).

End S004.

(** ** S012: mutable default values *)

Module S012.
Import CheckDefaultArgumentValueIsMutable.

(** The default values of the parameters of a function: those of the
    ordinary parameters and those of the keyword-only ones. *)
Definition default_values (a : arguments_ node) : list node :=
  (defaults a ++ Ast.somes (kw_defaults a))%list.

Definition has_mutable_default (n : node) : bool :=
  match n with
  | ast_FunctionDef _ _ a _ _ _ | ast_AsyncFunctionDef _ _ a _ _ _ =>
      existsb mutable (default_values a)
  | _ => false
  end.

End S012.

(** ** Names, engines, order and output *)

(** The first character of a name belongs to a class. *)
Definition begins_with (p : ascii -> bool) (name : string) : bool :=
  match name with
  | EmptyString => false
  | String c _ => p c
  end.

Definition is_lower (c : ascii) : bool := Str.in_range "a" "z" c.
Definition is_upper (c : ascii) : bool := Str.in_range "A" "Z" c.
Definition is_digit (c : ascii) : bool := Str.in_range "0" "9" c.

(** How many diagnostics of a list carry a given code and line. *)
Definition reported (code : string) (lineno : nat) (rs : list Result.t)
    : nat :=
  length (filter (fun d => String.eqb (Result.code d) code
                           && (Result.lineno d =? lineno)) rs).

(** The number of classes of a list that carry a given code. *)
Definition registered {U : Type} (code : string)
    (checks : list (Analyzer.Class U)) : nat :=
  length (filter (fun cls => String.eqb (Analyzer.code cls) code) checks).

(** The line that the engine holds when it reaches a node. *)
Definition line_at (n : node) (lineno : nat) : nat :=
  if Ast.is_expr n || Ast.is_stmt n then Ast.lineno n else lineno.

(** The order of the sort keys: [(lineno, code)], fields compared in
    turn. *)
Definition key_le (r1 r2 : Result.t) : Prop :=
  Result.lineno r1 < Result.lineno r2
  \/ (Result.lineno r1 = Result.lineno r2
      /\ String.leb (Result.code r1) (Result.code r2) = true).

Definition key_lt (r1 r2 : Result.t) : Prop :=
  Analyzer.key_ltb r1 r2 = true.

(** The diagnostics that the checkers return for a file, and those that
    [run] prints: none when a checker raises. *)
Definition collected (checkers : list Analyzer.Checker) (file : SourceFile)
    (w : World) : list Result.t :=
  match fst (Analyzer.collect checkers (path file) (text file) (attrs w)) with
  | Ok results => results
  | Raise _ => []
  end.

Definition printed (checkers : list Analyzer.Checker) (file : SourceFile)
    (w : World) : list Result.t :=
  Analyzer.sorted (collected checkers file w).

(** Two states of the class attributes with the same blank line
    counter, and a class whose verdict, counter and (when the verdict is
    positive) message depend on the state through that counter only. *)
Definition same_counter (st1 st2 : ClassAttrs) : Prop :=
  blank_lines st1 = blank_lines st2.

Definition counter_only {U : Type} (cls : Analyzer.Class U) : Prop :=
  forall (obj : U) (st1 st2 : ClassAttrs),
    same_counter st1 st2 ->
    fst (Analyzer.check cls obj st1) = fst (Analyzer.check cls obj st2)
    /\ same_counter (snd (Analyzer.check cls obj st1))
         (snd (Analyzer.check cls obj st2))
    /\ (fst (Analyzer.check cls obj st1) = true ->
        Analyzer.message cls (snd (Analyzer.check cls obj st1))
        = Analyzer.message cls (snd (Analyzer.check cls obj st2))).

(** ** S005: the comment of a line *)

Module S005.

(** The part of a line from its first hash on, when it has one. *)
Fixpoint comment_of (line : string) : option string :=
  match line with
  | EmptyString => None
  | String c rest =>
      if Ascii.eqb c "#" then Some line else comment_of rest
  end.

End S005.

(** ** S006: the run of blank lines *)

Module S006.

(** A line that [strip] empties. *)
Definition blank (line : string) : bool :=
  String.eqb (Str.strip line) "".

(** The length of the run of blank lines that ends a sequence of lines,
    when [c] blank lines came just before the sequence. *)
Definition counter_after (lines : list string) (c : nat) : nat :=
  fold_left (fun c line => if blank line then c + 1 else 0) lines c.

(** The last line of a text is not blank. *)
Definition last_line_has_text (code : string) : bool :=
  match rev (LineChecker.readlines code) with
  | line :: _ => negb (blank line)
  | [] => false
  end.

End S006.

(** ** Diagnostics *)

(** Two diagnostics with the same sort key. *)
Definition same_key (r1 r2 : Result.t) : bool :=
  (Result.lineno r1 =? Result.lineno r2)
  && String.eqb (Result.code r1) (Result.code r2).

(** The names that begin like a class name. *)
Definition capitalized (name : string) : bool :=
  begins_with (fun c => is_upper c || is_digit c) name.

(** ** S007: the construction that a line opens *)

Module S007.

(** The keyword, [class] or [def], that follows the leading spaces of a
    line and is itself followed by two spaces or more. *)
Definition construction (line : string) : option string :=
  let rest := Str.lstrip_chars " " line in
  if String.prefix "class  " rest then Some "class"
  else if String.prefix "def  " rest then Some "def"
  else None.

End S007.

(** ** The nodes of a tree *)

(** [reaches n m]: [m] is [n] or one of the nodes below [n]. *)
Inductive reaches : node -> node -> Prop :=
| reaches_self (n : node) : reaches n n
| reaches_child (n c m : node) :
    In c (Ast.iter_child_nodes n) -> reaches c m -> reaches n m.

(** ** The message of a check on a node *)

(** The text that describes, for the check of a given code, the node on
    which it is positive: the name is that of the class, of the
    function, of the first capitalized ordinary parameter or of the
    assigned variable. *)
Definition tree_message (code : string) (n : node) : string :=
  match n with
  | ast_ClassDef _ name _ _ _ _ =>
      "Class name '" ++ name ++ "' should use CamelCase"
  | ast_FunctionDef _ name a _ _ _ | ast_AsyncFunctionDef _ name a _ _ _ =>
      if String.eqb code "S009" then
        "Function name '" ++ name ++ "' should use snake_case"
      else if String.eqb code "S010" then
        match find (fun x => capitalized (arg x)) (args a) with
        | Some x => "Argument name '" ++ arg x ++ "' should be snake_case"
        | None => ""
        end
      else "Default argument value is mutable"
  | ast_Assign _ (ast_Name _ id _) _ _
  | ast_AugAssign _ (ast_Name _ id _) _ _
  | ast_AnnAssign _ (ast_Name _ id _) _ _ =>
      "Variable '" ++ id ++ "' in function should be snake_case"
  | _ => ""
  end.

(** ** Sources used as examples

    [ast_parse] gives, for the texts below, the tree that [ast.parse]
    builds for them, and raises for every other text. *)

Module Fixtures.

Definition NL : string := String Str.newline EmptyString.

(** [ast.Load()], [ast.Store()] and a constant: nodes without children. *)
Definition Load : node := ast_AST [].
Definition Store : node := ast_AST [].
Definition Constant (lineno : nat) : node := ast_expr lineno [].

(** One statement and three blank lines. *)
Definition trailing_blanks : SourceFile :=
  {| path := "a.py"; text := "x" ++ NL ++ NL ++ NL ++ NL |}.

Definition one_line : SourceFile :=
  {| path := "b.py"; text := "y" ++ NL |}.

Definition two_assignments : SourceFile :=
  {| path := "c.py"; text := "A = 1; B = 2" ++ NL |}.

Definition not_python : SourceFile :=
  {| path := "d.py"; text := "def" ++ NL |}.

Definition ast_parse (code : string) : result node :=
  if String.eqb code (text trailing_blanks) then
    Ok (ast_Module [ast_stmt 1 [ast_Name 1 "x" Load]])
  else if String.eqb code (text one_line) then
    Ok (ast_Module [ast_stmt 1 [ast_Name 1 "y" Load]])
  else if String.eqb code (text two_assignments) then
    Ok (ast_Module
          [ast_Assign 1 (ast_Name 1 "A" Store) [] (Constant 1);
           ast_Assign 1 (ast_Name 1 "B" Store) [] (Constant 1)])
  else Raise SyntaxError.

(** The empty [arguments] of a function. *)
Definition no_arguments : arguments_ node :=
  {| posonlyargs := []; args := []; vararg := None; kwonlyargs := [];
     kw_defaults := []; kwarg := None; defaults := [] |}.

Definition an_arg (lineno : nat) (name : string) : arg_ node :=
  {| arg_lineno := lineno; arg := name; annotation := None |}.

(** A function [f] whose only parameter [x] has a default value: [x] is
    an ordinary parameter in [def_f_x], a keyword-only one (declared
    after a bare star) in [def_f_kwonly_x]. *)
Definition def_f_x (default : node) : node :=
  ast_FunctionDef 1 "f"
    {| posonlyargs := []; args := [an_arg 1 "x"]; vararg := None;
       kwonlyargs := []; kw_defaults := []; kwarg := None;
       defaults := [default] |}
    [ast_stmt 1 []] [] None.

Definition def_f_kwonly_x (default : node) : node :=
  ast_FunctionDef 1 "f"
    {| posonlyargs := []; args := []; vararg := None;
       kwonlyargs := [an_arg 1 "x"]; kw_defaults := [Some default];
       kwarg := None; defaults := [] |}
    [ast_stmt 1 []] [] None.

End Fixtures.

(** * Properties *)

(** ** Strings *)

Section StringFacts.

Lemma prefix_cons (a b : ascii) (s1 s2 : string) :
  String.prefix (String a s1) (String b s2)
  = Ascii.eqb a b && String.prefix s1 s2.
Proof.
  change (String.prefix (String a s1) (String b s2))
    with (if ascii_dec a b then String.prefix s1 s2 else false).
  destruct (ascii_dec a b) as [->|Hab].
  - now rewrite Ascii.eqb_refl.
  - apply Ascii.eqb_neq in Hab. now rewrite Hab.
Qed.

Lemma prefix_nil_r (a : ascii) (s : string) :
  String.prefix (String a s) EmptyString = false.
Proof. reflexivity. Qed.

Lemma prefix_nil_l (s : string) : String.prefix EmptyString s = true.
Proof. destruct s; reflexivity. Qed.

Lemma get_head (c d : ascii) (s : string) :
  String.get 0 (String c s) = Some d <-> Ascii.eqb d c = true.
Proof.
  simpl. rewrite Ascii.eqb_eq. split; [intros [= ->] | intros ->]; reflexivity.
Qed.

Lemma prefix_hash (s : string) :
  Str.startswith "#" s = true <-> String.get 0 s = Some "#"%char.
Proof.
  unfold Str.startswith. destruct s as [|c s].
  - split; discriminate.
  - rewrite prefix_cons, prefix_nil_l, andb_true_r. symmetry. apply get_head.
Qed.

Lemma contains_cons (sub : string) (c : ascii) (s : string) :
  Str.contains sub (String c s)
  = String.prefix sub (String c s) || Str.contains sub s.
Proof. reflexivity. Qed.

Lemma contains_hash (s : string) :
  Str.contains "#" s = true <-> exists i, String.get i s = Some "#"%char.
Proof.
  induction s as [|c s IH].
  - split; [discriminate|]. intros [i H]. discriminate.
  - rewrite contains_cons.
    change (String.prefix "#" (String c s))
      with (Str.startswith "#" (String c s)).
    rewrite orb_true_iff, prefix_hash, IH. split.
    + intros [H|[i H]]; [exists 0 | exists (S i)]; assumption.
    + intros [[|i] H]; [left | right; exists i]; assumption.
Qed.

Lemma prefix_two_spaces_hash (s : string) :
  String.prefix "  #" s = true <->
  String.get 0 s = Some " "%char /\ String.get 1 s = Some " "%char
  /\ String.get 2 s = Some "#"%char.
Proof.
  destruct s as [|a [|b [|c s]]];
    repeat rewrite ?prefix_cons, ?prefix_nil_r, ?prefix_nil_l, ?andb_false_r;
    try (split; [discriminate | intros (H0 & H1 & H2); discriminate]).
  rewrite andb_true_r, !andb_true_iff.
  change (String.get 1 (String a (String b (String c s))))
    with (String.get 0 (String b (String c s))).
  change (String.get 2 (String a (String b (String c s))))
    with (String.get 0 (String c s)).
  rewrite !get_head. tauto.
Qed.

Lemma contains_two_spaces_hash (s : string) :
  Str.contains "  #" s = true <->
  exists i, String.get i s = Some " "%char
            /\ String.get (S i) s = Some " "%char
            /\ String.get (S (S i)) s = Some "#"%char.
Proof.
  induction s as [|c s IH].
  - split; [discriminate|]. intros (i & H & _). discriminate.
  - rewrite contains_cons, orb_true_iff, prefix_two_spaces_hash, IH. split.
    + intros [H|[i H]]; [exists 0 | exists (S i)]; assumption.
    + intros [[|i] H]; [left | right; exists i]; assumption.
Qed.

Lemma len_lstrip_le (p : ascii -> bool) (s : string) :
  Str.len (Str.lstrip_by p s) <= Str.len s.
Proof.
  induction s as [|c s IH]; simpl; [lia|].
  destruct (p c); simpl; unfold Str.len in *; lia.
Qed.

End StringFacts.

(** ** S002: indentation *)

Module S002Facts.
Import CheckIndentationIsNotAMultipleOfFour.
Import S002.

Lemma spaces_stripped (line : string) :
  Str.len line - Str.len (Str.lstrip_chars " " line) = leading_spaces line.
Proof.
  unfold Str.lstrip_chars, Str.len.
  set (p := fun c => Str.mem c " ").
  induction line as [|c rest IH]; [reflexivity|].
  pose proof (len_lstrip_le p rest) as Hle. unfold Str.len in Hle.
  cbn [Str.lstrip_by leading_spaces].
  replace (p c) with (Ascii.eqb c " ")
    by (unfold p; simpl; now rewrite orb_false_r).
  destruct (Ascii.eqb c " ").
  - rewrite <- IH. cbn [String.length]. lia.
  - lia.
Qed.

Lemma fires_iff_leading_spaces (line : string) :
  check line = true <-> leading_spaces line mod 4 <> 0.
Proof.
  unfold check. cbv zeta. rewrite spaces_stripped, negb_true_iff.
  apply Nat.eqb_neq.
Qed.

End S002Facts.

(** ** S004: spaces before an inline comment *)

Module S004Facts.
Import CheckLessThanTwoSpacesBeforeInlineComments.
Import S004.

Lemma fires_iff_positions (line : string) :
  check line = true <->
  String.get 0 line <> Some "#"%char
  /\ (exists i, String.get i line = Some "#"%char)
  /\ no_hash_after_two_spaces line.
Proof.
  unfold check, no_hash_after_two_spaces.
  rewrite !andb_true_iff, !negb_true_iff, contains_hash.
  rewrite <- !not_true_iff_false, prefix_hash, contains_two_spaces_hash.
  split.
  - intros [[H0 H1] H2]. repeat split; auto.
    intros i Hi [Ha Hb]. apply H2. exists i. auto.
  - intros (H0 & H1 & H2). repeat split; auto.
    intros (i & Ha & Hb & Hc). exact (H2 i Hc (conj Ha Hb)).
Qed.

End S004Facts.

(** ** S003: semicolons *)

Module S003Facts.
Import CheckUnnecessarySemicolon.
Import S003.

Lemma toggle_other (c : ascii) (q : bool * bool) :
  Ascii.eqb c Str.dquote = false -> Ascii.eqb c "'" = false -> toggle c q = q.
Proof.
  intros H1 H2. destruct q as [s d]. unfold toggle. now rewrite H1, H2.
Qed.

Lemma scan_spec (line : string) :
  forall q, scan line q = true <-> free_semicolon line q.
Proof.
  unfold free_semicolon. induction line as [|c rest IH]; intros q.
  - split; [discriminate|]. intros ([|a pre] & post & E & _); discriminate.
  - cbn [scan]. destruct (Ascii.eqb c "#") eqn:Ehash.
    + split; [discriminate|]. apply Ascii.eqb_eq in Ehash. subst c.
      intros ([|a pre] & post & E & Hm & _).
      * discriminate.
      * injection E as <- _. discriminate.
    + destruct (Ascii.eqb c ";") eqn:Esemi.
      * apply Ascii.eqb_eq in Esemi. subst c.
        rewrite (toggle_other ";" q) by reflexivity.
        destruct q as [[|] [|]]; cbn [andb negb fst snd orb].
        4: { split; [intros _|reflexivity].
             exists EmptyString, rest. repeat split. }
        all: rewrite IH; split.
        all: try (intros (pre & post & -> & Hm & Hq);
                  exists (String ";" pre), post; repeat split; assumption).
        all: intros ([|a pre] & post & E & Hm & Hq);
          [cbn in Hq; discriminate Hq|].
        all: injection E as <- ->; exists pre, post; repeat split;
          [exact Hm | exact Hq].
      * cbn [andb]. rewrite IH. split.
        -- intros (pre & post & -> & Hm & Hq).
           exists (String c pre), post. repeat split.
           ++ cbn [Str.mem]. rewrite Ascii.eqb_sym, Ehash. exact Hm.
           ++ exact Hq.
        -- intros ([|a pre] & post & E & Hm & Hq).
           ++ injection E as -> _. cbn in Esemi. discriminate Esemi.
           ++ injection E as <- ->. exists pre, post. repeat split.
              ** cbn [Str.mem] in Hm. apply orb_false_iff in Hm. apply Hm.
              ** exact Hq.
Qed.

Lemma toggle_flags (c : ascii) (s : span) :
  toggle c (flags s) = flags (step c s).
Proof.
  destruct (Ascii.eqb c "'") eqn:E1.
  - apply Ascii.eqb_eq in E1. subst c. destruct s; reflexivity.
  - destruct (Ascii.eqb c Str.dquote) eqn:E2.
    + apply Ascii.eqb_eq in E2. subst c. destruct s; reflexivity.
    + rewrite toggle_other by assumption.
      destruct s; cbn [step]; now rewrite ?E1, ?E2.
Qed.

Lemma quotes_flags (pre : string) :
  forall s, quotes pre (flags s) = flags (span_after pre s).
Proof.
  induction pre as [|c pre IH]; intros s; [reflexivity|].
  cbn [quotes span_after]. now rewrite toggle_flags, IH.
Qed.

Lemma flags_outside (s : span) : flags s = (false, false) <-> s = Outside.
Proof. destruct s; split; intros H; try discriminate; reflexivity. Qed.

Lemma fires_iff_semicolon_before_any_hash (line : string) :
  check line = true <-> semicolon_before_any_hash line.
Proof.
  unfold check. rewrite scan_spec.
  unfold free_semicolon, semicolon_before_any_hash.
  change (false, false) with (flags Outside) at 1.
  split; intros (pre & post & E & Hm & Hq); exists pre, post;
    repeat split; auto.
  - rewrite quotes_flags in Hq. now apply flags_outside.
  - rewrite quotes_flags, Hq. reflexivity.
Qed.

Lemma mem_hash_app (p q : string) : Str.mem "#" (p ++ String "#" q) = true.
Proof.
  induction p as [|c p IH]; cbn [append Str.mem].
  - reflexivity.
  - rewrite IH. apply orb_true_r.
Qed.

(** The check fires only where the catalogue says it does: what it
    misses are the semicolons that follow a hash inside a quoted span. *)
Lemma fires_only_before_comment (line : string) :
  check line = true -> semicolon_before_comment line.
Proof.
  rewrite fires_iff_semicolon_before_any_hash.
  intros (pre & post & E & Hm & Hq). exists pre, post. repeat split; auto.
  intros (p & q & -> & _). rewrite mem_hash_app in Hm. discriminate Hm.
Qed.

End S003Facts.

(** ** The patterns of the naming checks *)

Section Patterns.

Lemma is_match_seq_empty (r : Re.regex) (s : string) :
  Re.is_match (Re.Seq Re.Empty r) s = false.
Proof. induction s as [|c s IH]; [reflexivity | exact IH]. Qed.

(** A class followed by any run of another class matches a name as soon
    as the first character of the name is in the class. *)
Lemma is_match_class_star (p w : ascii -> bool) (name : string) :
  Re.is_match (Re.Seq (Re.Class p) (Re.Star (Re.Class w))) name
  = begins_with p name.
Proof.
  destruct name as [|c s]; [reflexivity|].
  cbn [Re.is_match Re.nullable Re.deriv andb orb begins_with].
  destruct (p c).
  - destruct s; reflexivity.
  - apply is_match_seq_empty.
Qed.

Lemma not_camel_case (name : string) :
  Re.is_match Analyzer.PATTERN_NOT_CAMEL_CASE name
  = begins_with (fun c => is_lower c || is_digit c || Ascii.eqb c "_") name.
Proof. apply is_match_class_star. Qed.

Lemma not_snake_case (name : string) :
  Re.is_match Analyzer.PATTERN_NOT_SNAKE_CASE name
  = begins_with (fun c => is_upper c || is_digit c) name.
Proof. apply is_match_class_star. Qed.

End Patterns.

(** ** The engines *)

Section Engines.

Ltac run_state :=
  unfold bind, ret, get, modify in *; cbn [fst snd] in *.

Lemma exec_Some {U : Type} (cls : Analyzer.Class U) (file : string)
    (obj : U) (lineno : nat) (st st' : ClassAttrs) (d : Result.t) :
  Analyzer.exec cls file obj lineno st = (Some d, st') ->
  fst (Analyzer.check cls obj st) = true
  /\ Result.lineno d = lineno
  /\ Result.code d = Analyzer.code cls.
Proof.
  unfold Analyzer.exec. run_state.
  destruct (Analyzer.check cls obj st) as [[|] st1]; intros [= <- <-]; auto.
Qed.

Lemma exec_all_In {U : Type} (checks : list (Analyzer.Class U))
    (file : string) (obj : U) (lineno : nat) :
  forall st d,
    In d (fst (Analyzer.exec_all checks file obj lineno st)) ->
    Result.lineno d = lineno
    /\ exists cls st0, In cls checks
         /\ Result.code d = Analyzer.code cls
         /\ fst (Analyzer.check cls obj st0) = true.
Proof.
  induction checks as [|cls checks IH]; intros st d; cbn [Analyzer.exec_all].
  - intros [].
  - run_state.
    destruct (Analyzer.exec cls file obj lineno st) as [r st1] eqn:E1.
    destruct (Analyzer.exec_all checks file obj lineno st1) as [rs st2] eqn:E2.
    cbn [fst]. intros Hin.
    assert (Hrs : In d rs ->
                  Result.lineno d = lineno
                  /\ exists cls0 st0, In cls0 (cls :: checks)
                       /\ Result.code d = Analyzer.code cls0
                       /\ fst (Analyzer.check cls0 obj st0) = true).
    { intros H. specialize (IH st1 d). rewrite E2 in IH.
      destruct (IH H) as (Hl & c & s0 & Hc & Hcode & Hfire).
      split; [exact Hl|]. exists c, s0. simpl. auto. }
    destruct r as [d0|]; [|auto].
    destruct Hin as [<-|Hin]; [|auto].
    destruct (exec_Some _ _ _ _ _ _ _ E1) as (Hf & Hl & Hc).
    split; [exact Hl|]. exists cls, st. simpl. auto.
Qed.

Lemma reported_app (code : string) (lineno : nat) (rs rs' : list Result.t) :
  reported code lineno (rs ++ rs')
  = reported code lineno rs + reported code lineno rs'.
Proof. unfold reported. now rewrite filter_app, length_app. Qed.

Lemma reported_cons (code : string) (j : nat) (d : Result.t)
    (rs : list Result.t) :
  reported code j (d :: rs)
  = (if String.eqb (Result.code d) code && (Result.lineno d =? j)
     then 1 else 0) + reported code j rs.
Proof.
  unfold reported. cbn [filter].
  destruct (String.eqb (Result.code d) code && (Result.lineno d =? j));
    reflexivity.
Qed.

Lemma registered_cons {U : Type} (code : string) (cls : Analyzer.Class U)
    (checks : list (Analyzer.Class U)) :
  registered code (cls :: checks)
  = (if String.eqb (Analyzer.code cls) code then 1 else 0)
    + registered code checks.
Proof.
  unfold registered. cbn [filter].
  destruct (String.eqb (Analyzer.code cls) code); reflexivity.
Qed.

Lemma exec_all_reported {U : Type} (checks : list (Analyzer.Class U))
    (file : string) (obj : U) (lineno : nat) (code : string) (j : nat) :
  forall st,
    reported code j (fst (Analyzer.exec_all checks file obj lineno st))
    <= registered code checks
    /\ (j <> lineno ->
        reported code j (fst (Analyzer.exec_all checks file obj lineno st))
        = 0).
Proof.
  induction checks as [|cls checks IH]; intros st; cbn [Analyzer.exec_all].
  - split; [apply Nat.le_0_l | reflexivity].
  - run_state.
    destruct (Analyzer.exec cls file obj lineno st) as [r st1] eqn:E1.
    destruct (Analyzer.exec_all checks file obj lineno st1) as [rs st2] eqn:E2.
    specialize (IH st1). rewrite E2 in IH. cbn [fst] in *.
    destruct IH as [IH1 IH2]. rewrite registered_cons.
    destruct r as [d0|].
    + destruct (exec_Some _ _ _ _ _ _ _ E1) as (_ & Hl & Hc).
      rewrite reported_cons, Hc, Hl.
      destruct (String.eqb (Analyzer.code cls) code); cbn [andb].
      * destruct (lineno =? j) eqn:Ej.
        -- split; [lia|]. apply Nat.eqb_eq in Ej. congruence.
        -- split; [lia|]. intros Hne. rewrite (IH2 Hne). reflexivity.
      * split; [lia|]. intros Hne. rewrite (IH2 Hne). reflexivity.
    + split; [lia | exact IH2].
Qed.

Lemma scan_reported (checks : list (Analyzer.Class string)) (file : string)
    (code : string) (j : nat) (lines : list string) :
  forall i st,
    reported code j (fst (LineChecker.scan checks file lines i st))
    <= registered code checks
    /\ (j < i ->
        reported code j (fst (LineChecker.scan checks file lines i st)) = 0).
Proof.
  induction lines as [|line lines IH]; intros i st; cbn [LineChecker.scan].
  - split; [apply Nat.le_0_l | reflexivity].
  - run_state.
    destruct (Analyzer.exec_all checks file line i st) as [rs st1] eqn:E1.
    destruct (LineChecker.scan checks file lines (S i) st1) as [rs' st2] eqn:E2.
    cbn [fst]. rewrite reported_app.
    pose proof (exec_all_reported checks file line i code j st) as [H1 H2].
    rewrite E1 in H1, H2. cbn [fst] in H1, H2.
    destruct (IH (S i) st1) as [H3 H4]. rewrite E2 in H3, H4.
    cbn [fst] in H3, H4.
    destruct (Nat.eq_dec j i) as [->|Hne].
    + rewrite H4 by lia. split; [lia|]. intros Hlt. lia.
    + rewrite H2 by exact Hne. split; [exact H3|].
      intros Hlt. apply H4. lia.
Qed.

End Engines.

(** ** [ast.walk] visits every node *)

Section Walk.

Lemma sizes_app (l l' : list node) :
  Ast.sizes (l ++ l') = Ast.sizes l + Ast.sizes l'.
Proof. unfold Ast.sizes. now rewrite map_app, list_sum_app. Qed.

Lemma sizes_cons (n : node) (l : list node) :
  Ast.sizes (n :: l) = Ast.size n + Ast.sizes l.
Proof. reflexivity. Qed.

Lemma sizes_of_option (o : option node) :
  Ast.sizes (Ast.of_option o)
  = match o with Some x => Ast.size x | None => 0 end.
Proof. destruct o; unfold Ast.sizes; simpl; lia. Qed.

Lemma sizes_somes (l : list (option node)) :
  Ast.sizes (Ast.somes l)
  = list_sum (map (fun o : option node =>
                     match o with Some x => Ast.size x | None => 0 end) l).
Proof.
  induction l as [|o l IH]; [reflexivity|].
  unfold Ast.somes in *. cbn [flat_map map list_sum fold_right].
  rewrite sizes_app, IH, sizes_of_option. reflexivity.
Qed.

Lemma size_arg (a : arg_ node) :
  Ast.size (ast_arg a)
  = S (match annotation a with Some x => Ast.size x | None => 0 end).
Proof. reflexivity. Qed.

Lemma sizes_args (l : list (arg_ node)) :
  Ast.sizes (map ast_arg l)
  = list_sum (map (fun a : arg_ node =>
                     S (match annotation a with
                        | Some x => Ast.size x
                        | None => 0
                        end)) l).
Proof.
  induction l as [|a l IH]; [reflexivity|].
  cbn [map list_sum fold_right]. rewrite sizes_cons, IH, size_arg. reflexivity.
Qed.

Lemma sizes_arguments (a : arguments_ node) :
  Ast.size (ast_arguments a) = S (Ast.sizes (Ast.arguments_children a)).
Proof.
  unfold Ast.arguments_children.
  rewrite !sizes_app, !sizes_args, sizes_somes. cbn [Ast.size].
  destruct (vararg a), (kwarg a); cbn [Ast.of_option map];
    rewrite ?sizes_cons, ?size_arg; unfold Ast.sizes;
    cbn [map list_sum fold_right]; lia.
Qed.

Lemma size_children (n : node) :
  Ast.size n = S (Ast.sizes (Ast.iter_child_nodes n)).
Proof.
  destruct n as [ | | | | | | | | | | | | | | a | a | ];
    [ .. | apply sizes_arguments | | ];
    cbn [Ast.iter_child_nodes];
    rewrite ?sizes_cons, ?sizes_app, ?sizes_cons, ?sizes_of_option,
      ?sizes_somes.
  all: try (cbn [Ast.size]; unfold Ast.sizes;
            cbn [map list_sum fold_right]; lia).
Qed.

Lemma walk_queue_length (fuel : nat) :
  forall todo, Ast.sizes todo <= fuel ->
               length (Ast.walk_queue fuel todo) = Ast.sizes todo.
Proof.
  induction fuel as [|fuel IH]; intros [|n rest] Hle; try reflexivity.
  - rewrite sizes_cons, (size_children n) in Hle. lia.
  - cbn [Ast.walk_queue length]. rewrite sizes_cons, (size_children n) in *.
    rewrite IH; rewrite sizes_app; lia.
Qed.

(** The fuel that [walk] takes is enough: it yields as many nodes as the
    tree has. *)
Lemma walk_length (tree : node) : length (Ast.walk tree) = Ast.size tree.
Proof.
  unfold Ast.walk. rewrite walk_queue_length; rewrite sizes_cons;
    unfold Ast.sizes; simpl; lia.
Qed.

End Walk.

(** ** The tree engine attributes a diagnostic to its node *)

Section TreeEngine.

Ltac run_state :=
  unfold bind, ret, get, modify in *; cbn [fst snd] in *.

Lemma visit_In (checks : list (Analyzer.Class node)) (file : string)
    (nodes : list node) :
  forall lineno st d,
    In d (fst (AstChecker.visit checks file nodes lineno st)) ->
    exists n cls st0 l0,
      In n nodes /\ In cls checks
      /\ Result.code d = Analyzer.code cls
      /\ fst (Analyzer.check cls n st0) = true
      /\ Result.lineno d = line_at n l0.
Proof.
  induction nodes as [|n nodes IH]; intros lineno st d;
    cbn [AstChecker.visit].
  - intros [].
  - run_state. fold (line_at n lineno).
    destruct (Analyzer.exec_all checks file n (line_at n lineno) st)
      as [rs st1] eqn:E1.
    destruct (AstChecker.visit checks file nodes (line_at n lineno) st1)
      as [rs' st2] eqn:E2.
    cbn [fst]. rewrite in_app_iff. intros [Hin|Hin].
    + pose proof (exec_all_In checks file n (line_at n lineno) st d) as H.
      rewrite E1 in H. destruct (H Hin) as (Hl & cls & st0 & Hc & Hcode & Hf).
      exists n, cls, st0, lineno. simpl. auto.
    + specialize (IH (line_at n lineno) st1 d). rewrite E2 in IH.
      destruct (IH Hin) as (m & cls & st0 & l0 & Hm & Hrest).
      exists m, cls, st0, l0. simpl. auto.
Qed.

(** Every check on nodes is positive on statements only. *)
Lemma fires_on_statement (cls : Analyzer.Class node) (n : node)
    (st : ClassAttrs) :
  In cls AstChecker_subclasses ->
  fst (Analyzer.check cls n st) = true -> Ast.is_stmt n = true.
Proof.
  intros Hin. simpl in Hin.
  destruct Hin as [<-|[<-|[<-|[<-|[<-|[]]]]]]; destruct n;
    cbn; try discriminate; reflexivity.
Qed.

End TreeEngine.

(** ** [sorted] *)

Section Sorting.

Lemma string_ltb_leb (a b : string) :
  String.ltb a b = true -> String.leb a b = true.
Proof. unfold String.ltb, String.leb. destruct (String.compare a b); auto. Qed.

Lemma string_nltb_leb (a b : string) :
  String.ltb a b = false -> String.leb b a = true.
Proof.
  unfold String.ltb, String.leb. rewrite (String.compare_antisym a b).
  destruct (String.compare b a); simpl; auto.
Qed.

Lemma key_ltb_le (r1 r2 : Result.t) :
  Analyzer.key_ltb r1 r2 = true -> key_le r1 r2.
Proof.
  unfold Analyzer.key_ltb, key_le.
  rewrite orb_true_iff, andb_true_iff, Nat.ltb_lt, Nat.eqb_eq.
  intros [H|[H1 H2]]; [left | right]; auto using string_ltb_leb.
Qed.

Lemma key_nltb_le (r1 r2 : Result.t) :
  Analyzer.key_ltb r1 r2 = false -> key_le r2 r1.
Proof.
  unfold Analyzer.key_ltb, key_le.
  rewrite orb_false_iff, andb_false_iff, Nat.ltb_ge, Nat.eqb_neq.
  intros [H [H1|H2]].
  - left. lia.
  - destruct (Nat.eq_dec (Result.lineno r2) (Result.lineno r1)) as [E|E].
    + right. auto using string_nltb_leb.
    + left. lia.
Qed.

Lemma insert_perm (r : Result.t) (l : list Result.t) :
  Permutation (r :: l) (Analyzer.insert r l).
Proof.
  induction l as [|r' l IH]; cbn [Analyzer.insert]; [reflexivity|].
  destruct (Analyzer.key_ltb r' r); [|reflexivity].
  rewrite perm_swap. now apply perm_skip.
Qed.

Lemma sorted_perm (l : list Result.t) : Permutation l (Analyzer.sorted l).
Proof.
  induction l as [|r l IH]; cbn [Analyzer.sorted]; [constructor|].
  rewrite <- insert_perm. now apply perm_skip.
Qed.

Lemma insert_HdRel (a r : Result.t) (l : list Result.t) :
  key_le a r -> HdRel key_le a l -> HdRel key_le a (Analyzer.insert r l).
Proof.
  intros Har Hal. destruct l as [|r' l]; cbn [Analyzer.insert].
  - now constructor.
  - destruct (Analyzer.key_ltb r' r); constructor; auto.
    now inversion Hal.
Qed.

Lemma insert_Sorted (r : Result.t) (l : list Result.t) :
  Sorted key_le l -> Sorted key_le (Analyzer.insert r l).
Proof.
  induction l as [|r' l IH]; intros Hs; cbn [Analyzer.insert].
  - repeat constructor.
  - inversion Hs as [|? ? Hs' Hhd]; subst.
    destruct (Analyzer.key_ltb r' r) eqn:E.
    + constructor; [auto|]. apply insert_HdRel; auto using key_ltb_le.
    + constructor; [exact Hs|]. constructor. now apply key_nltb_le.
Qed.

Lemma sorted_Sorted (l : list Result.t) : Sorted key_le (Analyzer.sorted l).
Proof.
  induction l as [|r l IH]; cbn [Analyzer.sorted]; [constructor|].
  now apply insert_Sorted.
Qed.

End Sorting.

(** ** [run] and [main] *)

Section Runs.

Variable ast_parse : string -> result node.

Lemma run_stdout (checkers : list Analyzer.Checker) (file : SourceFile)
    (w : World) :
  stdout (snd (Analyzer.run checkers file w))
  = (stdout w ++ map Result.message (printed checkers file w))%list.
Proof.
  unfold Analyzer.run, printed, collected.
  destruct (Analyzer.collect checkers (path file) (text file) (attrs w))
    as [[results|e] st]; cbn [fst snd stdout].
  - reflexivity.
  - cbn [Analyzer.sorted map]. now rewrite app_nil_r.
Qed.

Lemma execute_checks_raises (checks : list (Analyzer.Class node))
    (file code : string) (e : exn) (st : ClassAttrs) :
  ast_parse code = Raise e ->
  AstChecker.execute_checks ast_parse checks file code st = (Raise e, st).
Proof. unfold AstChecker.execute_checks. now intros ->. Qed.

Lemma run_raises (file : SourceFile) (e : exn) (w : World) :
  ast_parse (text file) = Raise e ->
  exists st, Analyzer_run ast_parse file w
             = (Raise e, {| attrs := st; stdout := stdout w |}).
Proof.
  intros He. unfold Analyzer_run, Analyzer.run, Analyzer_subclasses.
  cbn [Analyzer.collect]. unfold bind, ret.
  destruct (LineChecker.execute_checks LineChecker_subclasses (path file)
              (text file) (attrs w)) as [r st1] eqn:E1.
  unfold LineChecker.execute_checks, bind, ret in E1.
  destruct (LineChecker.scan LineChecker_subclasses (path file)
              (LineChecker.readlines (text file)) 1 (attrs w)) as [rs st1'].
  injection E1 as <- <-.
  rewrite (execute_checks_raises _ _ _ e st1' He). eauto.
Qed.




Lemma run_all_app (before after : list SourceFile) :
  forall w w1,
    run_all ast_parse before w = (Ok tt, w1) ->
    run_all ast_parse (before ++ after) w = run_all ast_parse after w1.
Proof.
  induction before as [|f before IH]; intros w w1; cbn [run_all app].
  - now intros [= ->].
  - destruct (Analyzer_run ast_parse f w) as [[[]|e] w']; [apply IH|].
    discriminate.
Qed.

End Runs.

(** ** S012: mutable default values *)

Module S012Facts.
Import CheckDefaultArgumentValueIsMutable.
Import S012.

(** What [check] looks at: [node.args.defaults] only. *)
Lemma fires_iff_positional_default (n : node) :
  check n = true <->
  exists l name a body decos returns d,
    (n = ast_FunctionDef l name a body decos returns
     \/ n = ast_AsyncFunctionDef l name a body decos returns)
    /\ In d (defaults a) /\ mutable d = true.
Proof.
  split.
  - destruct n; try discriminate; cbn [check]; rewrite existsb_exists;
      intros (d & Hd & Hm); repeat eexists; eauto.
  - intros (l & name & a & body & decos & returns & d & [->| ->] & Hd & Hm);
      cbn [check]; rewrite existsb_exists; eauto.
Qed.

End S012Facts.

(** ** What a run owes to the runs before it *)

Section Isolation.

Variable ast_parse : string -> result node.

Ltac run_state :=
  unfold bind, ret, get, modify in *; cbn [fst snd] in *.

Ltac settle := cbn; repeat split; auto; discriminate.

Lemma line_classes_counter_only :
  Forall counter_only LineChecker_subclasses.
Proof.
  repeat apply Forall_cons; [.. | apply Forall_nil];
    intros obj st1 st2 H; unfold same_counter in *;
    cbn [Analyzer.check Analyzer.message stateless].
  - auto.
  - auto.
  - auto.
  - auto.
  - auto.
  - unfold CheckTooManyBlankLines.check. run_state. rewrite H.
    destruct (String.eqb (Str.strip obj) ""); cbn; repeat split; auto; discriminate.
  - unfold CheckTooManySpacesAfterConstructionName.check. run_state.
    destruct (Re.is_match _ obj); cbn; repeat split; auto; discriminate.
Qed.

Lemma node_classes_counter_only :
  Forall counter_only AstChecker_subclasses.
Proof.
  repeat apply Forall_cons; [.. | apply Forall_nil];
    intros obj st1 st2 H; unfold same_counter in *;
    cbn [Analyzer.check Analyzer.message stateless].
  - destruct obj; try solve [settle].
    cbn [CheckClassNameShouldBeWrittenInCamelCase.check].
    destruct (Re.is_match _ name); settle.
  - destruct obj; try solve [settle];
      cbn [CheckFunctionNameShouldBeWrittenInSnakeCase.check];
      destruct (Re.is_match _ name); settle.
  - destruct obj; try solve [settle];
      cbn [CheckArgumentNameShouldBeWrittenInSnakeCase.check];
      destruct (CheckArgumentNameShouldBeWrittenInSnakeCase.first_match _);
      settle.
  - unfold CheckVariableShouldBeWrittenInSnakeCase.check.
    destruct (CheckVariableShouldBeWrittenInSnakeCase.target_of obj)
      as [[]|]; try solve [settle].
    destruct (Re.is_match _ id); settle.
  - auto.
Qed.

Lemma exec_counter_only {U : Type} (cls : Analyzer.Class U) (file : string)
    (obj : U) (lineno : nat) (st1 st2 : ClassAttrs) :
  counter_only cls -> same_counter st1 st2 ->
  fst (Analyzer.exec cls file obj lineno st1)
  = fst (Analyzer.exec cls file obj lineno st2)
  /\ same_counter (snd (Analyzer.exec cls file obj lineno st1))
       (snd (Analyzer.exec cls file obj lineno st2)).
Proof.
  intros Hcls Hst. destruct (Hcls obj st1 st2 Hst) as (Hb & Hs & Hm).
  unfold Analyzer.exec. run_state.
  destruct (Analyzer.check cls obj st1) as [b1 s1].
  destruct (Analyzer.check cls obj st2) as [b2 s2].
  cbn [fst snd] in *. subst b2. destruct b1; cbn [fst snd]; [|auto].
  rewrite (Hm eq_refl). auto.
Qed.

Lemma exec_all_counter_only {U : Type} (checks : list (Analyzer.Class U))
    (file : string) (obj : U) (lineno : nat) :
  Forall counter_only checks ->
  forall st1 st2, same_counter st1 st2 ->
    fst (Analyzer.exec_all checks file obj lineno st1)
    = fst (Analyzer.exec_all checks file obj lineno st2)
    /\ same_counter (snd (Analyzer.exec_all checks file obj lineno st1))
         (snd (Analyzer.exec_all checks file obj lineno st2)).
Proof.
  induction 1 as [|cls checks Hcls _ IH]; intros st1 st2 Hst;
    cbn [Analyzer.exec_all]; [auto|].
  run_state.
  destruct (exec_counter_only cls file obj lineno st1 st2 Hcls Hst)
    as [Hr Hs].
  destruct (Analyzer.exec cls file obj lineno st1) as [r1 s1].
  destruct (Analyzer.exec cls file obj lineno st2) as [r2 s2].
  cbn [fst snd] in *. subst r2. destruct (IH s1 s2 Hs) as [Hrs Hs'].
  destruct (Analyzer.exec_all checks file obj lineno s1) as [rs1 s1'].
  destruct (Analyzer.exec_all checks file obj lineno s2) as [rs2 s2'].
  cbn [fst snd] in *. subst rs2. auto.
Qed.

Lemma scan_counter_only (file : string) (lines : list string) :
  forall i st1 st2, same_counter st1 st2 ->
    fst (LineChecker.scan LineChecker_subclasses file lines i st1)
    = fst (LineChecker.scan LineChecker_subclasses file lines i st2)
    /\ same_counter
         (snd (LineChecker.scan LineChecker_subclasses file lines i st1))
         (snd (LineChecker.scan LineChecker_subclasses file lines i st2)).
Proof.
  induction lines as [|line lines IH]; intros i st1 st2 Hst;
    cbn [LineChecker.scan]; [auto|].
  run_state.
  destruct (exec_all_counter_only LineChecker_subclasses file line i
              line_classes_counter_only st1 st2 Hst) as [Hr Hs].
  destruct (Analyzer.exec_all LineChecker_subclasses file line i st1)
    as [r1 s1].
  destruct (Analyzer.exec_all LineChecker_subclasses file line i st2)
    as [r2 s2].
  cbn [fst snd] in *. subst r2. destruct (IH (S i) s1 s2 Hs) as [Hrs Hs'].
  destruct (LineChecker.scan LineChecker_subclasses file lines (S i) s1)
    as [rs1 s1'].
  destruct (LineChecker.scan LineChecker_subclasses file lines (S i) s2)
    as [rs2 s2'].
  cbn [fst snd] in *. subst rs2. auto.
Qed.

Lemma visit_counter_only (file : string) (nodes : list node) :
  forall l st1 st2, same_counter st1 st2 ->
    fst (AstChecker.visit AstChecker_subclasses file nodes l st1)
    = fst (AstChecker.visit AstChecker_subclasses file nodes l st2)
    /\ same_counter
         (snd (AstChecker.visit AstChecker_subclasses file nodes l st1))
         (snd (AstChecker.visit AstChecker_subclasses file nodes l st2)).
Proof.
  induction nodes as [|n nodes IH]; intros l st1 st2 Hst;
    cbn [AstChecker.visit]; [auto|].
  run_state. fold (line_at n l).
  destruct (exec_all_counter_only AstChecker_subclasses file n (line_at n l)
              node_classes_counter_only st1 st2 Hst) as [Hr Hs].
  destruct (Analyzer.exec_all AstChecker_subclasses file n (line_at n l) st1)
    as [r1 s1].
  destruct (Analyzer.exec_all AstChecker_subclasses file n (line_at n l) st2)
    as [r2 s2].
  cbn [fst snd] in *. subst r2.
  destruct (IH (line_at n l) s1 s2 Hs) as [Hrs Hs'].
  destruct (AstChecker.visit AstChecker_subclasses file nodes (line_at n l) s1)
    as [rs1 s1'].
  destruct (AstChecker.visit AstChecker_subclasses file nodes (line_at n l) s2)
    as [rs2 s2'].
  cbn [fst snd] in *. subst rs2. auto.
Qed.

(** The earlier runs of an interpreter reach a run through the blank
    line counter only: from two worlds with the same counter, [run]
    gets the same result, prints the same diagnostics and leaves the
    same counter. *)
Lemma run_counter_only (file : SourceFile) (w1 w2 : World) :
  same_counter (attrs w1) (attrs w2) ->
  fst (Analyzer_run ast_parse file w1) = fst (Analyzer_run ast_parse file w2)
  /\ printed (Analyzer_subclasses ast_parse) file w1
     = printed (Analyzer_subclasses ast_parse) file w2
  /\ same_counter (attrs (snd (Analyzer_run ast_parse file w1)))
       (attrs (snd (Analyzer_run ast_parse file w2))).
Proof.
  intros Hst.
  unfold Analyzer_run, Analyzer.run, printed, collected, Analyzer_subclasses.
  cbn [Analyzer.collect]. unfold LineChecker.execute_checks,
    AstChecker.execute_checks. run_state.
  destruct (scan_counter_only (path file)
              (LineChecker.readlines (text file)) 1 _ _ Hst) as [Hr Hs].
  destruct (LineChecker.scan LineChecker_subclasses (path file)
              (LineChecker.readlines (text file)) 1 (attrs w1)) as [r1 s1].
  destruct (LineChecker.scan LineChecker_subclasses (path file)
              (LineChecker.readlines (text file)) 1 (attrs w2)) as [r2 s2].
  cbn [fst snd] in *. subst r2.
  destruct (ast_parse (text file)) as [tree|e]; cbn [fst snd attrs]; [|auto].
  destruct (visit_counter_only (path file) (Ast.walk tree) 0 s1 s2 Hs)
    as [Hrs Hs'].
  destruct (AstChecker.visit AstChecker_subclasses (path file)
              (Ast.walk tree) 0 s1) as [rs1 s1'].
  destruct (AstChecker.visit AstChecker_subclasses (path file)
              (Ast.walk tree) 0 s2) as [rs2 s2'].
  cbn [fst snd attrs] in *. subst rs2. auto.
Qed.

(** In particular a file is analysed as if alone whenever the counter
    is 0 when its run starts. *)
Lemma run_as_alone (file : SourceFile) (w : World) :
  blank_lines (attrs w) = 0 ->
  printed (Analyzer_subclasses ast_parse) file w
  = printed (Analyzer_subclasses ast_parse) file initial_world.
Proof. intros H. now apply run_counter_only. Qed.

End Isolation.

(** * The claims *)

(** C1 (the code departs from the claim).  The blank line counter of
    S006 is a class attribute that nothing resets when a new file is
    scanned.  [a.py] ends with three blank lines and leaves the counter
    at 3; [b.py], analysed after it in the same directory run, is
    reported on its first line, although it holds no blank line and
    is reported nothing when it is analysed alone. *)
Theorem C1_blank_line_counter_outlives_a_file :
  stdout (snd (main Fixtures.ast_parse
                 (IsFile ".py" Fixtures.one_line) initial_world)) = []
  /\ stdout (snd (main Fixtures.ast_parse
                    (IsDir [Fixtures.trailing_blanks; Fixtures.one_line])
                    initial_world))
     = ["b.py: Line 1: S006 Too many blank lines"]
  /\ blank_lines (attrs (snd (Analyzer_run Fixtures.ast_parse
                                Fixtures.trailing_blanks initial_world))) = 3.
Proof. vm_compute. repeat split. Qed.


(** C3 (the code departs from the claim).  A line of two spaces and a
    newline consists entirely of whitespace, and is a blank line by the
    test of S006; the claim exempts it, and [check] counts and strips
    spaces only in order to keep blank lines out of trouble, yet S002
    fires on it. *)
Theorem C3_whitespace_line_fires :
  S002.all_whitespace ("  " ++ Fixtures.NL) = true
  /\ S006.blank ("  " ++ Fixtures.NL) = true
  /\ CheckIndentationIsNotAMultipleOfFour.check ("  " ++ Fixtures.NL) = true.
Proof. vm_compute. repeat split. Qed.

(** C4 (the code departs from the claim).  In [x # a  # b] the inline
    comment starts at column 2, after one space only: a hash that is
    not at column 0 and whose two preceding characters are not both
    spaces.  S004 is silent all the same, because a later hash of the
    line follows two spaces. *)
Theorem C4_hash_after_late_double_space :
  S004.some_hash_badly_spaced "x # a  # b"
  /\ CheckLessThanTwoSpacesBeforeInlineComments.check "x # a  # b" = false.
Proof.
  split; [|reflexivity].
  exists 2. repeat split; [lia|].
  intros (j & Hj & H0 & _). injection Hj as <-. discriminate H0.
Qed.

(** C5 (the code departs from the claim).  In [print('#'); x = 1] the
    semicolon stands outside the quoted spans and no comment starts
    before it: the only hash of the line is inside the single-quoted
    span.  S003 is silent all the same, because the loop of [check]
    stops at the first hash of the line, quoted or not. *)
Theorem C5_quoted_hash_hides_semicolon :
  S003.semicolon_before_comment "print('#'); x = 1"
  /\ CheckUnnecessarySemicolon.check "print('#'); x = 1" = false.
Proof.
  split; [|reflexivity].
  exists "print('#')", " x = 1". repeat split.
  intros (p & q & E & Hp).
  repeat (destruct p as [|a p]; cbn [append] in E;
          [ first [discriminate E | vm_compute in Hp; discriminate Hp]
          | first [discriminate E | injection E as Ea E; subst a] ]).
Qed.

(** C6, as stated, fails: the order is not strict.  [A = 1; B = 2] holds
    two assignments on line 1; each fires S011, and the two diagnostics
    printed for it have the same line and the same code. *)
Lemma C6_order_is_not_strict :
  ~ (forall (file : SourceFile) (w : World),
       Sorted key_lt
         (printed (Analyzer_subclasses Fixtures.ast_parse) file w)).
Proof.
  intros H. specialize (H Fixtures.two_assignments initial_world).
  vm_compute in H.
  inversion H as [|? ? H1 _]; subst.
  inversion H1 as [|? ? _ Hhd]; subst.
  inversion Hhd as [|? ? Hlt]; subst.
  discriminate Hlt.
Qed.

(** C6 (amended).  Whatever checkers are registered and in whatever
    order, [run] prints the messages of the collected diagnostics,
    rearranged so that line numbers ascend and, on one line, codes
    ascend; two diagnostics may share both. *)
Theorem C6_output_is_ordered (checkers : list Analyzer.Checker)
    (file : SourceFile) (w : World) :
  stdout (snd (Analyzer.run checkers file w))
  = (stdout w ++ map Result.message (printed checkers file w))%list
  /\ Sorted key_le (printed checkers file w)
  /\ Permutation (collected checkers file w) (printed checkers file w).
Proof.
  split; [apply run_stdout | split].
  - apply sorted_Sorted.
  - apply sorted_perm.
Qed.

(** C7 (the code departs from the claim).  [check] reads the defaults
    of the ordinary parameters only: a function whose keyword-only
    parameter has a list literal as its default is not flagged.  On the
    three examples of the claim the code does as the claim says. *)
Theorem C7_keyword_only_default_not_flagged :
  let empty_list := ast_List 1 [] Fixtures.Load in
  let empty_tuple := ast_Tuple 1 [] Fixtures.Load in
  S012.has_mutable_default (Fixtures.def_f_kwonly_x empty_list) = true
  /\ CheckDefaultArgumentValueIsMutable.check
       (Fixtures.def_f_kwonly_x empty_list) = false
  /\ CheckDefaultArgumentValueIsMutable.check (Fixtures.def_f_x empty_list)
     = true
  /\ CheckDefaultArgumentValueIsMutable.check
       (Fixtures.def_f_x (Fixtures.Constant 1)) = false
  /\ CheckDefaultArgumentValueIsMutable.check (Fixtures.def_f_x empty_tuple)
     = false.
Proof. cbv zeta. repeat split. Qed.

(** C8.  When [ast.parse] raises on the text of a file, the tree engine
    raises the same exception without touching anything; [run] lets it
    through and prints nothing for the file; and a directory run that
    reaches the file ends there, with the exception: the files after it
    are not analysed. *)
Theorem C8_parse_failure_aborts_the_run (ast_parse : string -> result node)
    (file : SourceFile) (e : exn) (before after : list SourceFile)
    (w w1 : World) :
  ast_parse (text file) = Raise e ->
  run_all ast_parse before w = (Ok tt, w1) ->
  (forall st,
     AstChecker.execute_checks ast_parse AstChecker_subclasses
       (path file) (text file) st = (Raise e, st))
  /\ fst (Analyzer_run ast_parse file w1) = Raise e
  /\ stdout (snd (Analyzer_run ast_parse file w1)) = stdout w1
  /\ main ast_parse (IsDir (before ++ file :: after)) w
     = Analyzer_run ast_parse file w1.
Proof.
  intros He Hbefore.
  destruct (run_raises ast_parse file e w1 He) as [st Hrun].
  split; [intros st0; now apply execute_checks_raises|].
  rewrite Hrun. cbn [fst snd stdout]. repeat split.
  cbn [main]. rewrite (run_all_app ast_parse before _ w w1 Hbefore).
  cbn [run_all]. now rewrite Hrun.
Qed.

Lemma C8_parse_failure_witness :
  main Fixtures.ast_parse
    (IsDir [Fixtures.two_assignments; Fixtures.not_python; Fixtures.one_line])
    initial_world
  = Analyzer_run Fixtures.ast_parse Fixtures.not_python
      (snd (run_all Fixtures.ast_parse [Fixtures.two_assignments]
              initial_world)).
Proof.
  refine (proj2 (proj2 (proj2
    (C8_parse_failure_aborts_the_run Fixtures.ast_parse Fixtures.not_python
       SyntaxError [Fixtures.two_assignments] [Fixtures.one_line]
       initial_world _ _ _)))).
  - reflexivity.
  - vm_compute. reflexivity.
Defined.

(** C9.  S008 and S009 look at the first character of the name only:
    S008 fires on a class definition exactly when its name begins with a
    lowercase letter, a digit or an underscore; S009 fires on a function
    or async function definition exactly when its name begins with an
    uppercase letter or a digit; no other node fires them, and
    [my_Func] is not flagged by S009. *)
Theorem C9_naming_checks_look_at_first_character (n : node)
    (st : ClassAttrs) :
  fst (CheckClassNameShouldBeWrittenInCamelCase.check n st)
  = match n with
    | ast_ClassDef _ name _ _ _ _ =>
        begins_with
          (fun c => is_lower c || is_digit c || Ascii.eqb c "_") name
    | _ => false
    end
  /\ fst (CheckFunctionNameShouldBeWrittenInSnakeCase.check n st)
     = match n with
       | ast_FunctionDef _ name _ _ _ _
       | ast_AsyncFunctionDef _ name _ _ _ _ =>
           begins_with (fun c => is_upper c || is_digit c) name
       | _ => false
       end
  /\ (forall l a body decorator_list returns,
        fst (CheckFunctionNameShouldBeWrittenInSnakeCase.check
               (ast_FunctionDef l "my_Func" a body decorator_list returns)
               st) = false).
Proof.
  split; [|split; [|reflexivity]].
  - destruct n; try reflexivity.
    cbn [CheckClassNameShouldBeWrittenInCamelCase.check].
    rewrite not_camel_case. now destruct (begins_with _ name).
  - destruct n; try reflexivity;
      cbn [CheckFunctionNameShouldBeWrittenInSnakeCase.check];
      rewrite not_snake_case; now destruct (begins_with _ name).
Qed.

(** C10.  Every diagnostic of the tree engine comes from a node of the
    walk that is a statement, on which the check of that code was
    positive, and carries the [lineno] of that very node; as the
    statements of a parsed tree are on line 1 or later, it never carries
    the value 0 that the engine starts with. *)
Theorem C10_tree_diagnostic_carries_node_line
    (ast_parse : string -> result node) (file code : string)
    (st : ClassAttrs) (tree : node) (rs : list Result.t) (d : Result.t) :
  ast_parse code = Ok tree ->
  (forall m, In m (Ast.walk tree) -> Ast.is_stmt m = true ->
             0 < Ast.lineno m) ->
  fst (AstChecker.execute_checks ast_parse AstChecker_subclasses
         file code st) = Ok rs ->
  In d rs ->
  exists n cls st0,
    In n (Ast.walk tree) /\ Ast.is_stmt n = true
    /\ In cls AstChecker_subclasses
    /\ Result.code d = Analyzer.code cls
    /\ fst (Analyzer.check cls n st0) = true
    /\ Result.lineno d = Ast.lineno n
    /\ Result.lineno d <> 0.
Proof.
  intros Hparse Hpos Hrs Hd.
  unfold AstChecker.execute_checks in Hrs. rewrite Hparse in Hrs.
  unfold bind, ret in Hrs.
  destruct (AstChecker.visit AstChecker_subclasses file (Ast.walk tree) 0 st)
    as [rs0 st'] eqn:E.
  cbn [fst] in Hrs. injection Hrs as ->.
  pose proof (visit_In AstChecker_subclasses file (Ast.walk tree) 0 st d) as H.
  rewrite E in H. destruct (H Hd) as (n & cls & st0 & l0 & Hn & Hc & Hcode
                                      & Hfire & Hline).
  pose proof (fires_on_statement cls n st0 Hc Hfire) as Hstmt.
  unfold line_at in Hline. rewrite Hstmt, orb_true_r in Hline.
  exists n, cls, st0. repeat split; auto.
  rewrite Hline. specialize (Hpos n Hn Hstmt). lia.
Qed.

Lemma C10_tree_diagnostic_witness :
  exists n cls st0,
    In n (Ast.walk (ast_Module
            [ast_Assign 1 (ast_Name 1 "A" Fixtures.Store) []
               (Fixtures.Constant 1);
             ast_Assign 1 (ast_Name 1 "B" Fixtures.Store) []
               (Fixtures.Constant 1)]))
    /\ Ast.is_stmt n = true
    /\ In cls AstChecker_subclasses
    /\ "S011" = Analyzer.code cls
    /\ fst (Analyzer.check cls n st0) = true
    /\ 1 = Ast.lineno n
    /\ 1 <> 0.
Proof.
  refine (C10_tree_diagnostic_carries_node_line Fixtures.ast_parse "c.py"
            (text Fixtures.two_assignments) initial_attrs _
            [ {| Result.lineno := 1; Result.code := "S011";
                 Result.message :=
                   "c.py: Line 1: S011 Variable 'A' in function should be snake_case" |};
              {| Result.lineno := 1; Result.code := "S011";
                 Result.message :=
                   "c.py: Line 1: S011 Variable 'B' in function should be snake_case" |} ]
            {| Result.lineno := 1; Result.code := "S011";
               Result.message :=
                 "c.py: Line 1: S011 Variable 'A' in function should be snake_case" |}
            _ _ _ _).
  - reflexivity.
  - vm_compute. intros m Hm.
    repeat (destruct Hm as [<-|Hm]; [intros; try discriminate; lia|]).
    contradiction.
  - vm_compute. reflexivity.
  - left. reflexivity.
Defined.

(** * Further properties of the checks and of the engines *)

(** ** S001: the length of a line *)

Section TooLong.

Lemma rstrip_nil_iff (p : ascii -> bool) (s : string) :
  Str.rstrip_by p s = EmptyString <->
  forall i c, String.get i s = Some c -> p c = true.
Proof.
  induction s as [|a s IH]; cbn [Str.rstrip_by].
  - split; [intros _ i c H; discriminate | reflexivity].
  - destruct (Str.rstrip_by p s) as [|b r] eqn:E.
    + destruct (p a) eqn:Ea.
      * split; [|reflexivity]. intros _ [|i] c H.
        -- injection H as <-. exact Ea.
        -- apply (proj1 IH eq_refl i c H).
      * split; [discriminate|]. intros H.
        specialize (H 0 a eq_refl). congruence.
    + split; [discriminate|]. intros H.
      assert (Hs : String b r = EmptyString)
        by (apply IH; intros i c Hi; exact (H (S i) c Hi)).
      discriminate Hs.
Qed.

(** The stripped line is longer than [n] exactly when some character
    that is not stripped stands at index [n] or further. *)
Lemma len_rstrip_gt (p : ascii -> bool) (s : string) :
  forall n,
    n < Str.len (Str.rstrip_by p s) <->
    exists i c, n <= i /\ String.get i s = Some c /\ p c = false.
Proof.
  unfold Str.len. induction s as [|a s IH]; intros n; cbn [Str.rstrip_by].
  - split; [cbn; lia|]. intros (i & c & _ & H & _). discriminate.
  - destruct (Str.rstrip_by p s) as [|b r] eqn:E.
    + pose proof (proj1 (rstrip_nil_iff p s) E) as Hall.
      destruct (p a) eqn:Ea; cbn [String.length].
      * split; [lia|]. intros ([|i] & c & _ & H & Hc).
        -- injection H as <-. congruence.
        -- rewrite (Hall i c H) in Hc. discriminate.
      * split.
        -- intros Hn. exists 0, a. repeat split; [lia | exact Ea].
        -- intros ([|i] & c & Hle & H & Hc); [lia|].
           rewrite (Hall i c H) in Hc. discriminate.
    + cbn [String.length]. destruct n as [|m].
      * split; [intros _|lia].
        destruct (proj1 (IH 0)) as (i & c & _ & H & Hc); [cbn; lia|].
        exists (S i), c. repeat split; [lia | exact H | exact Hc].
      * rewrite <- Nat.succ_lt_mono, IH. split.
        -- intros (i & c & Hle & H & Hc). exists (S i), c.
           repeat split; [lia | exact H | exact Hc].
        -- intros ([|i] & c & Hle & H & Hc); [lia|].
           exists i, c. repeat split; [lia | exact H | exact Hc].
Qed.

End TooLong.

(** S001 fires on a line exactly when a character that is not
    whitespace stands at column 80 or further (index 79 or more):
    trailing whitespace, the newline included, does not count. *)
Theorem S001_fires_iff_text_beyond_column_79 (line : string) :
  CheckTooLong.check line = true <->
  exists i c, 79 <= i /\ String.get i line = Some c
              /\ Str.isspace c = false.
Proof.
  unfold CheckTooLong.check, Str.rstrip. rewrite Nat.ltb_lt.
  apply len_rstrip_gt.
Qed.

(** ** S005: to-do comments *)

Section Todo.

Lemma prefix_hash_cons (c : ascii) (s : string) :
  String.prefix "#" (String c s) = Ascii.eqb c "#".
Proof.
  rewrite prefix_cons, prefix_nil_l, andb_true_r. apply Ascii.eqb_sym.
Qed.

Lemma drop_all (s : string) : Str.drop (String.length s) s = EmptyString.
Proof. induction s as [|c s IH]; [reflexivity | exact IH]. Qed.

(** [find] gives the index of the first hash, where the comment
    starts. *)
Lemma find_from_comment (s : string) :
  forall i c,
    (0 <= i)%Z -> S005.comment_of s = Some c ->
    exists k, Str.find_from "#" s i = (i + Z.of_nat k)%Z
              /\ Str.drop k s = c /\ k < String.length s.
Proof.
  induction s as [|a s IH]; intros i c Hi; cbn [S005.comment_of].
  - discriminate.
  - cbn [Str.find_from]. rewrite prefix_hash_cons.
    destruct (Ascii.eqb a "#").
    + intros [= <-]. exists 0. cbn. repeat split; lia.
    + intros H. destruct (IH (i + 1)%Z c ltac:(lia) H) as (k & Hk & Hd & Hl).
      exists (S k). cbn [Str.drop String.length]. repeat split; [lia|auto|lia].
Qed.

Lemma find_from_no_comment (s : string) :
  forall i, S005.comment_of s = None -> Str.find_from "#" s i = (-1)%Z.
Proof.
  induction s as [|a s IH]; intros i; cbn [S005.comment_of Str.find_from].
  - reflexivity.
  - rewrite prefix_hash_cons. destruct (Ascii.eqb a "#"); [discriminate|].
    apply IH.
Qed.

Lemma drop_last (s : string) :
  String.length (Str.drop (String.length s - 1) s) <= 1.
Proof.
  induction s as [|a s IH]; [cbn; lia|].
  cbn [String.length]. replace (S (String.length s) - 1)
    with (String.length s) by lia.
  destruct s as [|b s]; [cbn; lia|].
  cbn [String.length Str.drop] in *.
  replace (S (String.length s) - 1) with (String.length s) in IH by lia.
  exact IH.
Qed.

Lemma length_lower (s : string) :
  String.length (Str.lower s) = String.length s.
Proof. induction s as [|c s IH]; cbn; congruence. Qed.

Lemma contains_todo_short (s : string) :
  String.length s <= 1 -> Str.contains "todo" s = false.
Proof.
  destruct s as [|a [|b s]]; intros H.
  - reflexivity.
  - rewrite contains_cons, prefix_cons, prefix_nil_r, andb_false_r.
    reflexivity.
  - cbn in H. lia.
Qed.

End Todo.

(** S005 looks for [todo], in any case, in the part of the line that
    starts at its first hash; a line without a hash never fires,
    whatever it holds. *)
Theorem S005_fires_iff_todo_in_comment (line : string) :
  CheckTodoFound.check line
  = match S005.comment_of line with
    | Some comment => Str.contains "todo" (Str.lower comment)
    | None => false
    end.
Proof.
  unfold CheckTodoFound.check, Str.find, Str.slice_from, Str.len.
  destruct (S005.comment_of line) as [c|] eqn:E.
  - destruct (find_from_comment line 0%Z c ltac:(lia) E) as (k & -> & Hd & _).
    cbn zeta. replace (0 + Z.of_nat k <? 0)%Z with false
      by (symmetry; apply Z.ltb_ge; lia).
    now rewrite Z.add_0_l, Nat2Z.id, Hd.
  - rewrite (find_from_no_comment line 0%Z E). cbn zeta.
    change (-1 <? 0)%Z with true. cbv iota.
    apply contains_todo_short. rewrite length_lower.
    replace (Z.to_nat (Z.max 0 (-1 + Z.of_nat (String.length line))))
      with (String.length line - 1) by lia.
    apply drop_last.
Qed.

(** ** S010 and S011: names of arguments and of variables *)

Section Names.

Lemma first_match_find (l : list (arg_ node)) :
  CheckArgumentNameShouldBeWrittenInSnakeCase.first_match l
  = option_map arg (find (fun x => capitalized (arg x)) l).
Proof.
  induction l as [|a l IH];
    cbn [CheckArgumentNameShouldBeWrittenInSnakeCase.first_match find
         option_map]; [reflexivity|].
  rewrite not_snake_case. fold (capitalized (arg a)).
  now destruct (capitalized (arg a)).
Qed.

End Names.

(** S010 examines the ordinary parameters ([node.args.args]) of a
    function or async function definition, in order, and names in its
    message the first one that begins with an uppercase letter or a
    digit; positional-only, keyword-only and starred parameters are not
    examined, and no other node fires. *)
Theorem S010_names_first_capitalized_argument (n : node) (st : ClassAttrs) :
  CheckArgumentNameShouldBeWrittenInSnakeCase.check n st
  = match n with
    | ast_FunctionDef _ _ a _ _ _ | ast_AsyncFunctionDef _ _ a _ _ _ =>
        match find (fun x => capitalized (arg x)) (args a) with
        | Some x =>
            (true,
             set_message_S010
               ("Argument name '" ++ arg x ++ "' should be snake_case") st)
        | None => (false, st)
        end
    | _ => (false, st)
    end.
Proof.
  destruct n; try reflexivity;
    cbn [CheckArgumentNameShouldBeWrittenInSnakeCase.check];
    rewrite first_match_find;
    destruct (find _ (args a)); reflexivity.
Qed.

(** S011 fires on an assignment whose first target, or on an augmented
    or annotated assignment whose target, is a plain name that begins
    with an uppercase letter or a digit, and its message names it; the
    further targets of a chained assignment, and targets that are not
    plain names, are not examined. *)
Theorem S011_examines_first_target_only (n : node) (st : ClassAttrs) :
  CheckVariableShouldBeWrittenInSnakeCase.check n st
  = match n with
    | ast_Assign _ (ast_Name _ id _) _ _
    | ast_AugAssign _ (ast_Name _ id _) _ _
    | ast_AnnAssign _ (ast_Name _ id _) _ _ =>
        if capitalized id then
          (true,
           set_message_S011
             ("Variable '" ++ id ++ "' in function should be snake_case") st)
        else (false, st)
    | _ => (false, st)
    end.
Proof.
  unfold CheckVariableShouldBeWrittenInSnakeCase.check.
  destruct n as [ | | | | l t ts v | l t op v | l t an v | | | | | | | | | | ];
    try reflexivity;
    cbn [CheckVariableShouldBeWrittenInSnakeCase.target_of];
    destruct t; try reflexivity;
    rewrite not_snake_case; fold (capitalized id);
    now destruct (capitalized id).
Qed.

(** ** [sorted] is stable *)

Section Stability.

Lemma string_compare_refl (a : string) : String.compare a a = Eq.
Proof.
  induction a as [|c a IH]; [reflexivity|]. cbn [String.compare].
  unfold Ascii.compare. now rewrite N.compare_refl.
Qed.

Lemma same_key_not_lt (k r r' : Result.t) :
  same_key k r = true -> same_key k r' = true ->
  Analyzer.key_ltb r' r = false.
Proof.
  unfold same_key, Analyzer.key_ltb.
  rewrite !andb_true_iff, !Nat.eqb_eq, !String.eqb_eq.
  intros [Hl Hc] [Hl' Hc']. rewrite <- Hl, <- Hl', <- Hc, <- Hc'.
  rewrite Nat.ltb_irrefl, Nat.eqb_refl. cbn [orb andb].
  unfold String.ltb. now rewrite string_compare_refl.
Qed.

Lemma insert_stable (k r : Result.t) (l : list Result.t) :
  filter (same_key k) (Analyzer.insert r l) = filter (same_key k) (r :: l).
Proof.
  induction l as [|r' l IH]; cbn [Analyzer.insert]; [reflexivity|].
  destruct (Analyzer.key_ltb r' r) eqn:E; [|reflexivity].
  cbn [filter] in *. rewrite IH.
  destruct (same_key k r) eqn:Er, (same_key k r') eqn:Er'; try reflexivity.
  rewrite (same_key_not_lt k r r' Er Er') in E. discriminate.
Qed.

End Stability.

(** Among the diagnostics that share a line number and a code,
    [sorted] keeps the order in which the engines produced them. *)
Theorem sorted_keeps_order_of_equal_keys (k : Result.t)
    (results : list Result.t) :
  filter (same_key k) (Analyzer.sorted results)
  = filter (same_key k) results.
Proof.
  induction results as [|r results IH]; cbn [Analyzer.sorted];
    [reflexivity|].
  rewrite insert_stable. cbn [filter]. now rewrite IH.
Qed.

(** ** The line engine attributes a diagnostic to its line *)

Section LineEngine.

Ltac run_state :=
  unfold bind, ret, get, modify in *; cbn [fst snd] in *.

Lemma exec_all_In_exec {U : Type} (checks : list (Analyzer.Class U))
    (file : string) (obj : U) (lineno : nat) :
  forall st d,
    In d (fst (Analyzer.exec_all checks file obj lineno st)) ->
    exists cls st0 st1,
      In cls checks
      /\ Analyzer.exec cls file obj lineno st0 = (Some d, st1).
Proof.
  induction checks as [|cls checks IH]; intros st d; cbn [Analyzer.exec_all].
  - intros [].
  - run_state.
    destruct (Analyzer.exec cls file obj lineno st) as [r st1] eqn:E1.
    destruct (Analyzer.exec_all checks file obj lineno st1) as [rs st2] eqn:E2.
    cbn [fst]. intros Hin.
    assert (Hrs : In d rs ->
                  exists cls0 st0 st3,
                    In cls0 (cls :: checks)
                    /\ Analyzer.exec cls0 file obj lineno st0 = (Some d, st3)).
    { intros H. specialize (IH st1 d). rewrite E2 in IH.
      destruct (IH H) as (c & s0 & s1 & Hc & He).
      exists c, s0, s1. simpl. auto. }
    destruct r as [d0|]; [|auto].
    destruct Hin as [<-|Hin]; [|auto].
    exists cls, st, st1. simpl. auto.
Qed.

Lemma scan_In_exec (checks : list (Analyzer.Class string)) (file : string)
    (lines : list string) :
  forall i st d,
    In d (fst (LineChecker.scan checks file lines i st)) ->
    exists k line cls st0 st1,
      nth_error lines k = Some line /\ In cls checks
      /\ Analyzer.exec cls file line (i + k) st0 = (Some d, st1).
Proof.
  induction lines as [|line lines IH]; intros i st d; cbn [LineChecker.scan].
  - intros [].
  - run_state.
    destruct (Analyzer.exec_all checks file line i st) as [rs st1] eqn:E1.
    destruct (LineChecker.scan checks file lines (S i) st1) as [rs' st2] eqn:E2.
    cbn [fst]. rewrite in_app_iff. intros [Hin|Hin].
    + pose proof (exec_all_In_exec checks file line i st d) as H.
      rewrite E1 in H. destruct (H Hin) as (cls & s0 & s1 & Hc & He).
      exists 0, line, cls, s0, s1. rewrite Nat.add_0_r. auto.
    + specialize (IH (S i) st1 d). rewrite E2 in IH.
      destruct (IH Hin) as (k & l & cls & s0 & s1 & Hk & Hc & He).
      exists (S k), l, cls, s0, s1.
      replace (i + S k) with (S i + k) by lia. auto.
Qed.

Lemma exec_Some_message {U : Type} (cls : Analyzer.Class U) (file : string)
    (obj : U) (lineno : nat) (st st' : ClassAttrs) (d : Result.t) :
  Analyzer.exec cls file obj lineno st = (Some d, st') ->
  Result.message d
  = file ++ ": Line " ++ Str.of_nat lineno ++ ": " ++ Analyzer.code cls
    ++ " " ++ Analyzer.message cls (snd (Analyzer.check cls obj st)).
Proof.
  unfold Analyzer.exec. run_state.
  destruct (Analyzer.check cls obj st) as [[|] st1]; intros [= <- <-];
    reflexivity.
Qed.

End LineEngine.

(** Whatever line checks are registered, every diagnostic of the line
    engine belongs to a line of the file: its line number is the 1-based
    position of a line on which the check of its code was positive, and
    its message is made of the path, that number, the code and the
    message of that check. *)
Theorem line_diagnostic_belongs_to_a_line
    (checks : list (Analyzer.Class string)) (file code : string)
    (st : ClassAttrs) (rs : list Result.t) (d : Result.t) :
  fst (LineChecker.execute_checks checks file code st) = Ok rs ->
  In d rs ->
  exists k line cls st0,
    nth_error (LineChecker.readlines code) k = Some line
    /\ In cls checks
    /\ fst (Analyzer.check cls line st0) = true
    /\ Result.lineno d = S k
    /\ Result.code d = Analyzer.code cls
    /\ Result.message d
       = file ++ ": Line " ++ Str.of_nat (S k) ++ ": " ++ Analyzer.code cls
         ++ " " ++ Analyzer.message cls (snd (Analyzer.check cls line st0)).
Proof.
  unfold LineChecker.execute_checks, bind, ret.
  destruct (LineChecker.scan checks file (LineChecker.readlines code) 1 st)
    as [rs0 st'] eqn:E.
  cbn [fst]. intros [= <-] Hd.
  pose proof (scan_In_exec checks file (LineChecker.readlines code) 1 st d)
    as H.
  rewrite E in H. destruct (H Hd) as (k & line & cls & s0 & s1 & Hk & Hc & He).
  destruct (exec_Some _ _ _ _ _ _ _ He) as (Hf & Hl & Hcode).
  exists k, line, cls, s0. repeat split; auto.
  apply (exec_Some_message _ _ _ _ _ _ _ He).
Qed.

Lemma line_diagnostic_witness :
  exists k line cls st0,
    nth_error (LineChecker.readlines (text Fixtures.two_assignments)) k
    = Some line
    /\ In cls LineChecker_subclasses
    /\ fst (Analyzer.check cls line st0) = true
    /\ 1 = S k
    /\ "S003" = Analyzer.code cls
    /\ "c.py: Line 1: S003 Unnecessary semicolon"
       = "c.py" ++ ": Line " ++ Str.of_nat (S k) ++ ": " ++ Analyzer.code cls
         ++ " " ++ Analyzer.message cls (snd (Analyzer.check cls line st0)).
Proof.
  refine (line_diagnostic_belongs_to_a_line LineChecker_subclasses "c.py"
            (text Fixtures.two_assignments) initial_attrs
            [ {| Result.lineno := 1; Result.code := "S003";
                 Result.message :=
                   "c.py: Line 1: S003 Unnecessary semicolon" |} ]
            {| Result.lineno := 1; Result.code := "S003";
               Result.message :=
                 "c.py: Line 1: S003 Unnecessary semicolon" |} _ _).
  - vm_compute. reflexivity.
  - left. reflexivity.
Defined.

(** ** The blank line counter after a run *)

Section Counter.

Variable ast_parse : string -> result node.

Ltac run_state :=
  unfold bind, ret, get, modify in *; cbn [fst snd] in *.

Lemma exec_snd {U : Type} (cls : Analyzer.Class U) (file : string)
    (obj : U) (lineno : nat) (st : ClassAttrs) :
  snd (Analyzer.exec cls file obj lineno st)
  = snd (Analyzer.check cls obj st).
Proof.
  unfold Analyzer.exec. run_state.
  now destruct (Analyzer.check cls obj st) as [[|] st1].
Qed.

Lemma exec_all_snd {U : Type} (checks : list (Analyzer.Class U))
    (file : string) (obj : U) (lineno : nat) :
  forall st,
    snd (Analyzer.exec_all checks file obj lineno st)
    = fold_left (fun st cls => snd (Analyzer.check cls obj st)) checks st.
Proof.
  induction checks as [|cls checks IH]; intros st;
    cbn [Analyzer.exec_all fold_left]; [reflexivity|].
  run_state. rewrite <- (exec_snd cls file obj lineno st).
  destruct (Analyzer.exec cls file obj lineno st) as [r st1].
  cbn [snd]. rewrite <- IH.
  now destruct (Analyzer.exec_all checks file obj lineno st1) as [rs st2].
Qed.

Lemma line_checks_counter (file line : string) (i : nat) (st : ClassAttrs) :
  blank_lines (snd (Analyzer.exec_all LineChecker_subclasses file line i st))
  = if S006.blank line then blank_lines st + 1 else 0.
Proof.
  rewrite exec_all_snd.
  cbn [fold_left LineChecker_subclasses Analyzer.check stateless].
  unfold CheckTooManyBlankLines.check,
    CheckTooManySpacesAfterConstructionName.check, S006.blank.
  run_state.
  destruct (String.eqb (Str.strip line) "");
    destruct (Re.is_match _ line); reflexivity.
Qed.

Lemma scan_counter (file : string) (lines : list string) :
  forall i st,
    blank_lines (snd (LineChecker.scan LineChecker_subclasses file lines i st))
    = S006.counter_after lines (blank_lines st).
Proof.
  unfold S006.counter_after.
  induction lines as [|line lines IH]; intros i st;
    cbn [LineChecker.scan fold_left]; [reflexivity|].
  run_state. rewrite <- (line_checks_counter file line i st).
  destruct (Analyzer.exec_all LineChecker_subclasses file line i st)
    as [rs st1].
  cbn [snd]. rewrite <- (IH (S i) st1).
  now destruct (LineChecker.scan LineChecker_subclasses file lines (S i) st1).
Qed.

Lemma node_class_keeps_counter (cls : Analyzer.Class node) (n : node)
    (st : ClassAttrs) :
  In cls AstChecker_subclasses ->
  blank_lines (snd (Analyzer.check cls n st)) = blank_lines st.
Proof.
  intros Hin. simpl in Hin.
  destruct Hin as [<-|[<-|[<-|[<-|[<-|[]]]]]];
    cbn [Analyzer.check stateless].
  - destruct n; try reflexivity.
    cbn [CheckClassNameShouldBeWrittenInCamelCase.check].
    destruct (Re.is_match _ name); reflexivity.
  - destruct n; try reflexivity;
      cbn [CheckFunctionNameShouldBeWrittenInSnakeCase.check];
      destruct (Re.is_match _ name); reflexivity.
  - destruct n; try reflexivity;
      cbn [CheckArgumentNameShouldBeWrittenInSnakeCase.check];
      destruct (CheckArgumentNameShouldBeWrittenInSnakeCase.first_match _);
      reflexivity.
  - unfold CheckVariableShouldBeWrittenInSnakeCase.check.
    destruct (CheckVariableShouldBeWrittenInSnakeCase.target_of n)
      as [[]|]; try reflexivity.
    destruct (Re.is_match _ id); reflexivity.
  - reflexivity.
Qed.

Lemma fold_keeps_counter (n : node) (checks : list (Analyzer.Class node)) :
  (forall cls, In cls checks -> In cls AstChecker_subclasses) ->
  forall st,
    blank_lines
      (fold_left (fun st cls => snd (Analyzer.check cls n st)) checks st)
    = blank_lines st.
Proof.
  induction checks as [|cls checks IH]; intros Hsub st; cbn [fold_left];
    [reflexivity|].
  rewrite IH by (intros c Hc; apply Hsub; now right).
  apply node_class_keeps_counter. apply Hsub. now left.
Qed.

Lemma visit_counter (file : string) (nodes : list node) :
  forall l st,
    blank_lines (snd (AstChecker.visit AstChecker_subclasses file nodes l st))
    = blank_lines st.
Proof.
  induction nodes as [|n nodes IH]; intros l st;
    cbn [AstChecker.visit]; [reflexivity|].
  run_state. fold (line_at n l).
  pose proof (exec_all_snd AstChecker_subclasses file n (line_at n l) st)
    as Hs.
  destruct (Analyzer.exec_all AstChecker_subclasses file n (line_at n l) st)
    as [rs st1].
  cbn [snd] in Hs.
  pose proof (IH (line_at n l) st1) as Hv.
  destruct (AstChecker.visit AstChecker_subclasses file nodes (line_at n l)
              st1) as [rs' st2].
  cbn [snd] in *. rewrite Hv, Hs.
  apply fold_keeps_counter. auto.
Qed.

Lemma run_counter (file : SourceFile) (w : World) :
  blank_lines (attrs (snd (Analyzer_run ast_parse file w)))
  = S006.counter_after (LineChecker.readlines (text file))
      (blank_lines (attrs w)).
Proof.
  unfold Analyzer_run, Analyzer.run, Analyzer_subclasses.
  cbn [Analyzer.collect].
  unfold LineChecker.execute_checks, AstChecker.execute_checks, bind, ret.
  pose proof (scan_counter (path file) (LineChecker.readlines (text file))
                1 (attrs w)) as Hs.
  destruct (LineChecker.scan LineChecker_subclasses (path file)
              (LineChecker.readlines (text file)) 1 (attrs w)) as [rs st1].
  cbn [snd] in Hs.
  destruct (ast_parse (text file)) as [tree|e]; [|exact Hs].
  pose proof (visit_counter (path file) (Ast.walk tree) 0 st1) as Hv.
  destruct (AstChecker.visit AstChecker_subclasses (path file)
              (Ast.walk tree) 0 st1) as [rs' st2].
  cbn [snd attrs] in *. congruence.
Qed.

End Counter.

(** After a run, raised or not, the blank line counter is the length of
    the run of blank lines that ends the file, continued from the
    counter before the run when the file holds blank lines only: the
    tree engine never touches it and nothing resets it. *)
Theorem run_leaves_count_of_trailing_blank_lines
    (ast_parse : string -> result node) (file : SourceFile) (w : World) :
  blank_lines (attrs (snd (Analyzer_run ast_parse file w)))
  = S006.counter_after (LineChecker.readlines (text file))
      (blank_lines (attrs w)).
Proof. apply run_counter. Qed.

Section AsAlone.

Variable ast_parse : string -> result node.

Lemma counter_after_app (l l' : list string) (c : nat) :
  S006.counter_after (l ++ l') c
  = S006.counter_after l' (S006.counter_after l c).
Proof. unfold S006.counter_after. apply fold_left_app. Qed.

Lemma counter_after_text (code : string) (c : nat) :
  S006.last_line_has_text code = true ->
  S006.counter_after (LineChecker.readlines code) c = 0.
Proof.
  unfold S006.last_line_has_text.
  rewrite <- (rev_involutive (LineChecker.readlines code)) at 2.
  destruct (rev (LineChecker.readlines code)) as [|line l]; [discriminate|].
  intros H. cbn [rev]. rewrite counter_after_app.
  unfold S006.counter_after at 1. cbn [fold_left].
  apply negb_true_iff in H. now rewrite H.
Qed.

Lemma run_then_alone (file next : SourceFile) (w : World) :
  S006.last_line_has_text (text file) = true ->
  printed (Analyzer_subclasses ast_parse) next
    (snd (Analyzer_run ast_parse file w))
  = printed (Analyzer_subclasses ast_parse) next initial_world.
Proof.
  intros H. apply run_as_alone.
  rewrite run_counter. now apply counter_after_text.
Qed.

Lemma run_all_alone (files : list SourceFile) :
  Forall (fun file => S006.last_line_has_text (text file) = true) files ->
  forall w,
    blank_lines (attrs w) = 0 ->
    fst (run_all ast_parse files w) = Ok tt ->
    stdout (snd (run_all ast_parse files w))
    = (stdout w
       ++ flat_map
            (fun file =>
               map Result.message
                 (printed (Analyzer_subclasses ast_parse) file initial_world))
            files)%list.
Proof.
  induction 1 as [|file files Hfile _ IH]; intros w Hw;
    cbn [run_all flat_map].
  - intros _. now rewrite app_nil_r.
  - pose proof (run_stdout (Analyzer_subclasses ast_parse) file w) as Hout.
    pose proof (run_counter ast_parse file w) as Hc.
    fold (Analyzer_run ast_parse) in Hout.
    destruct (Analyzer_run ast_parse file w) as [[[]|e] w'];
      cbn [fst snd] in *; [|discriminate].
    intros Hok. rewrite (IH w'), Hout, <- app_assoc.
    + now rewrite (run_as_alone ast_parse file w Hw).
    + rewrite Hc. now apply counter_after_text.
    + exact Hok.
Qed.

End AsAlone.

(** A file whose last line is not blank leaves no trace: whatever was
    analysed before it, the file analysed next gets the diagnostics that
    it gets alone in a fresh interpreter. *)
Theorem file_ending_with_text_isolates_next_file
    (ast_parse : string -> result node) (file next : SourceFile)
    (w : World) :
  S006.last_line_has_text (text file) = true ->
  printed (Analyzer_subclasses ast_parse) next
    (snd (Analyzer_run ast_parse file w))
  = printed (Analyzer_subclasses ast_parse) next initial_world.
Proof. apply run_then_alone. Qed.

Lemma file_ending_with_text_witness :
  printed (Analyzer_subclasses Fixtures.ast_parse) Fixtures.one_line
    (snd (Analyzer_run Fixtures.ast_parse Fixtures.two_assignments
            initial_world))
  = printed (Analyzer_subclasses Fixtures.ast_parse) Fixtures.one_line
      initial_world.
Proof.
  refine (file_ending_with_text_isolates_next_file Fixtures.ast_parse
            Fixtures.two_assignments Fixtures.one_line initial_world _).
  vm_compute. reflexivity.
Defined.

(** When the last line of every file of a directory is not blank and
    the run ends normally, the run prints, file after file, what each
    file prints when it is analysed alone in a fresh interpreter. *)
Theorem directory_of_files_ending_with_text_prints_each_as_alone
    (ast_parse : string -> result node) (files : list SourceFile) :
  Forall (fun file => S006.last_line_has_text (text file) = true) files ->
  fst (main ast_parse (IsDir files) initial_world) = Ok tt ->
  stdout (snd (main ast_parse (IsDir files) initial_world))
  = flat_map
      (fun file =>
         map Result.message
           (printed (Analyzer_subclasses ast_parse) file initial_world))
      files.
Proof.
  intros Hfiles Hok.
  apply (run_all_alone ast_parse files Hfiles initial_world eq_refl Hok).
Qed.

Lemma directory_of_files_ending_with_text_witness :
  stdout (snd (main Fixtures.ast_parse
                 (IsDir [Fixtures.two_assignments; Fixtures.one_line])
                 initial_world))
  = flat_map
      (fun file =>
         map Result.message
           (printed (Analyzer_subclasses Fixtures.ast_parse) file
              initial_world))
      [Fixtures.two_assignments; Fixtures.one_line].
Proof.
  refine (directory_of_files_ending_with_text_prints_each_as_alone
            Fixtures.ast_parse
            [Fixtures.two_assignments; Fixtures.one_line] _ _).
  - repeat constructor.
  - vm_compute. reflexivity.
Defined.

(** The runs before a run reach it through the blank line counter only:
    from two states of the interpreter with the same counter, whatever
    the message attributes hold, [run] ends the same way, prints the
    same diagnostics and leaves the same counter. *)
Theorem run_depends_on_earlier_runs_through_counter_only
    (ast_parse : string -> result node) (file : SourceFile)
    (w1 w2 : World) :
  blank_lines (attrs w1) = blank_lines (attrs w2) ->
  fst (Analyzer_run ast_parse file w1) = fst (Analyzer_run ast_parse file w2)
  /\ printed (Analyzer_subclasses ast_parse) file w1
     = printed (Analyzer_subclasses ast_parse) file w2
  /\ blank_lines (attrs (snd (Analyzer_run ast_parse file w1)))
     = blank_lines (attrs (snd (Analyzer_run ast_parse file w2))).
Proof. intros H. now apply run_counter_only. Qed.

Lemma run_depends_on_counter_witness :
  let w2 :=
    snd (Analyzer_run Fixtures.ast_parse Fixtures.two_assignments
           initial_world) in
  fst (Analyzer_run Fixtures.ast_parse Fixtures.one_line initial_world)
  = fst (Analyzer_run Fixtures.ast_parse Fixtures.one_line w2)
  /\ printed (Analyzer_subclasses Fixtures.ast_parse) Fixtures.one_line
       initial_world
     = printed (Analyzer_subclasses Fixtures.ast_parse) Fixtures.one_line w2
  /\ blank_lines
       (attrs (snd (Analyzer_run Fixtures.ast_parse Fixtures.one_line
                      initial_world)))
     = blank_lines
         (attrs (snd (Analyzer_run Fixtures.ast_parse Fixtures.one_line w2))).
Proof.
  refine (run_depends_on_earlier_runs_through_counter_only
            Fixtures.ast_parse Fixtures.one_line initial_world _ _).
  vm_compute. reflexivity.
Defined.

(** ** S006 inside a file *)

Section BlankLines.

Ltac run_state :=
  unfold bind, ret, get, modify in *; cbn [fst snd] in *.

Lemma line_checks_S006 (file line : string) (i j : nat) (st : ClassAttrs) :
  reported CheckTooManyBlankLines.code j
    (fst (Analyzer.exec_all LineChecker_subclasses file line i st))
  = if (i =? j) && negb (S006.blank line) && (2 <? blank_lines st)
    then 1 else 0.
Proof.
  cbn [Analyzer.exec_all LineChecker_subclasses]. unfold Analyzer.exec.
  cbn [Analyzer.check Analyzer.code Analyzer.message stateless].
  unfold CheckTooManyBlankLines.check,
    CheckTooManySpacesAfterConstructionName.check, S006.blank.
  run_state.
  destruct (CheckTooLong.check line),
    (CheckIndentationIsNotAMultipleOfFour.check line),
    (CheckUnnecessarySemicolon.check line),
    (CheckLessThanTwoSpacesBeforeInlineComments.check line),
    (CheckTodoFound.check line),
    (String.eqb (Str.strip line) ""),
    (Re.is_match CheckTooManySpacesAfterConstructionName.pattern line);
    cbn [fst snd blank_lines set_blank_lines negb andb];
    rewrite ?andb_false_r, ?andb_true_r;
    destruct (2 <? blank_lines st); cbn [fst snd andb];
    rewrite ?andb_false_r, ?andb_true_r;
    unfold reported; cbn [filter Result.code Result.lineno];
    cbv [CheckTooLong.code CheckIndentationIsNotAMultipleOfFour.code
         CheckUnnecessarySemicolon.code
         CheckLessThanTwoSpacesBeforeInlineComments.code CheckTodoFound.code
         CheckTooManyBlankLines.code
         CheckTooManySpacesAfterConstructionName.code];
    repeat match goal with
           | |- context [String.eqb ?a ?b] =>
               let v := eval vm_compute in (String.eqb a b) in
               change (String.eqb a b) with v
           end;
    cbn [andb filter length]; destruct (i =? j); reflexivity.
Qed.

Lemma counter_after_cons (line : string) (lines : list string) (c : nat) :
  S006.counter_after (line :: lines) c
  = S006.counter_after lines (if S006.blank line then c + 1 else 0).
Proof. reflexivity. Qed.

Lemma scan_S006 (file : string) (lines : list string) :
  forall i st k line,
    nth_error lines k = Some line ->
    reported CheckTooManyBlankLines.code (i + k)
      (fst (LineChecker.scan LineChecker_subclasses file lines i st))
    = if negb (S006.blank line)
         && (2 <? S006.counter_after (firstn k lines) (blank_lines st))
      then 1 else 0.
Proof.
  induction lines as [|l0 lines IH]; intros i st k line Hk.
  - destruct k; discriminate.
  - cbn [LineChecker.scan]. run_state.
    pose proof (line_checks_S006 file l0 i (i + k) st) as H0.
    pose proof (line_checks_counter file l0 i st) as Hc.
    destruct (Analyzer.exec_all LineChecker_subclasses file l0 i st)
      as [rs st1].
    pose proof (scan_reported LineChecker_subclasses file
                  CheckTooManyBlankLines.code (i + k) lines (S i) st1)
      as [_ Hzero].
    pose proof (IH (S i) st1) as IH'.
    destruct (LineChecker.scan LineChecker_subclasses file lines (S i) st1)
      as [rs' st2].
    cbn [fst snd] in *. rewrite reported_app, H0.
    destruct k as [|k'].
    + cbn [nth_error] in Hk. injection Hk as ->.
      rewrite Hzero by lia.
      replace (i =? i + 0) with true by (symmetry; apply Nat.eqb_eq; lia).
      cbn [firstn S006.counter_after fold_left andb]. lia.
    + cbn [nth_error] in Hk.
      replace (i =? i + S k') with false
        by (symmetry; apply Nat.eqb_neq; lia).
      cbn [andb firstn]. rewrite counter_after_cons, <- Hc.
      replace (i + S k') with (S i + k') by lia.
      apply (IH' k' line Hk).
Qed.

End BlankLines.

(** Inside a file, the line engine reports S006 on a line, once, exactly
    when the line is not blank and more than two blank lines come just
    before it, counting from the value of the counter when the scan of
    the file starts. *)
Theorem S006_reported_after_more_than_two_blank_lines
    (file code : string) (st : ClassAttrs) (rs : list Result.t)
    (k : nat) (line : string) :
  fst (LineChecker.execute_checks LineChecker_subclasses file code st)
  = Ok rs ->
  nth_error (LineChecker.readlines code) k = Some line ->
  reported CheckTooManyBlankLines.code (S k) rs
  = if negb (S006.blank line)
       && (2 <? S006.counter_after (firstn k (LineChecker.readlines code))
                  (blank_lines st))
    then 1 else 0.
Proof.
  unfold LineChecker.execute_checks, bind, ret.
  pose proof (scan_S006 file (LineChecker.readlines code) 1 st k line) as H.
  destruct (LineChecker.scan LineChecker_subclasses file
              (LineChecker.readlines code) 1 st) as [rs0 st'].
  cbn [fst] in *. intros [= <-] Hk. exact (H Hk).
Qed.

Lemma S006_reported_witness :
  reported CheckTooManyBlankLines.code 4
    [ {| Result.lineno := 4; Result.code := "S006";
         Result.message := "e.py: Line 4: S006 Too many blank lines" |} ]
  = if negb (S006.blank ("x" ++ Fixtures.NL))
       && (2 <? S006.counter_after
                  (firstn 3
                     (LineChecker.readlines
                        (Fixtures.NL ++ Fixtures.NL ++ Fixtures.NL ++ "x"
                         ++ Fixtures.NL)))
                  (blank_lines initial_attrs))
    then 1 else 0.
Proof.
  refine (S006_reported_after_more_than_two_blank_lines "e.py"
            (Fixtures.NL ++ Fixtures.NL ++ Fixtures.NL ++ "x" ++ Fixtures.NL)
            initial_attrs _ 3 ("x" ++ Fixtures.NL) _ _).
  - vm_compute. reflexivity.
  - vm_compute. reflexivity.
Defined.

(** ** S007: spaces after [class] and [def] *)

Section MatcherLaws.

Lemma is_match_nil (r : Re.regex) :
  Re.is_match r EmptyString = Re.nullable r.
Proof. cbn [Re.is_match]. apply orb_false_r. Qed.

Lemma is_match_cons (r : Re.regex) (c : ascii) (s : string) :
  Re.is_match r (String c s)
  = Re.nullable r || Re.is_match (Re.deriv c r) s.
Proof. reflexivity. Qed.

Lemma is_match_nullable (r : Re.regex) (s : string) :
  Re.nullable r = true -> Re.is_match r s = true.
Proof. intros H. destruct s; cbn [Re.is_match]; now rewrite H. Qed.

Lemma is_match_alt (s : string) :
  forall a b,
    Re.is_match (Re.Alt a b) s = Re.is_match a s || Re.is_match b s.
Proof.
  induction s as [|c s IH]; intros a b.
  - now rewrite !is_match_nil.
  - rewrite !is_match_cons. cbn [Re.nullable Re.deriv]. rewrite IH.
    destruct (Re.nullable a), (Re.nullable b),
      (Re.is_match (Re.deriv c a) s), (Re.is_match (Re.deriv c b) s);
      reflexivity.
Qed.

Lemma is_match_seq_eps (r : Re.regex) (s : string) :
  Re.is_match (Re.Seq Re.Eps r) s = Re.is_match r s.
Proof.
  destruct s as [|c s].
  - now rewrite !is_match_nil.
  - rewrite !is_match_cons. cbn [Re.nullable Re.deriv andb].
    now rewrite is_match_alt, is_match_seq_empty.
Qed.

Lemma is_match_seq_class (p : ascii -> bool) (r : Re.regex) (s : string) :
  Re.is_match (Re.Seq (Re.Class p) r) s
  = match s with
    | EmptyString => false
    | String c s' => p c && Re.is_match r s'
    end.
Proof.
  destruct s as [|c s].
  - now rewrite is_match_nil.
  - rewrite is_match_cons. cbn [Re.nullable Re.deriv andb orb].
    destruct (p c); [apply is_match_seq_eps | apply is_match_seq_empty].
Qed.

Lemma is_match_seq_alt (r : Re.regex) (s : string) :
  forall a b,
    Re.is_match (Re.Seq (Re.Alt a b) r) s
    = Re.is_match (Re.Seq a r) s || Re.is_match (Re.Seq b r) s.
Proof.
  induction s as [|c s IH]; intros a b.
  - rewrite !is_match_nil. cbn [Re.nullable].
    destruct (Re.nullable a), (Re.nullable b), (Re.nullable r); reflexivity.
  - rewrite !is_match_cons. cbn [Re.nullable Re.deriv].
    destruct (Re.nullable a), (Re.nullable b); cbn [orb andb];
      rewrite ?is_match_alt, ?IH;
      destruct (Re.nullable r),
        (Re.is_match (Re.Seq (Re.deriv c a) r) s),
        (Re.is_match (Re.Seq (Re.deriv c b) r) s),
        (Re.is_match (Re.deriv c r) s); reflexivity.
Qed.

Lemma is_match_seq_assoc (r : Re.regex) (s : string) :
  forall a b,
    Re.is_match (Re.Seq (Re.Seq a b) r) s
    = Re.is_match (Re.Seq a (Re.Seq b r)) s.
Proof.
  induction s as [|c s IH]; intros a b.
  - rewrite !is_match_nil. cbn [Re.nullable]. now rewrite andb_assoc.
  - rewrite !is_match_cons. cbn [Re.nullable Re.deriv].
    destruct (Re.nullable a), (Re.nullable b); cbn [orb andb];
      rewrite ?is_match_alt, ?is_match_seq_alt, ?IH, ?is_match_alt;
      destruct (Re.nullable r),
        (Re.is_match (Re.Seq (Re.deriv c a) (Re.Seq b r)) s),
        (Re.is_match (Re.Seq (Re.deriv c b) r) s),
        (Re.is_match (Re.deriv c r) s); reflexivity.
Qed.

Lemma is_match_seq_star_class (p : ascii -> bool) (r : Re.regex)
    (s : string) :
  Re.is_match (Re.Seq (Re.Star (Re.Class p)) r) s
  = Re.is_match r s
    || match s with
       | EmptyString => false
       | String c s' =>
           p c && Re.is_match (Re.Seq (Re.Star (Re.Class p)) r) s'
       end.
Proof.
  destruct s as [|c s].
  - rewrite !is_match_nil. cbn [Re.nullable andb]. now rewrite orb_false_r.
  - rewrite (is_match_cons (Re.Seq _ r)), (is_match_cons r).
    cbn [Re.nullable Re.deriv andb].
    rewrite is_match_alt, is_match_seq_assoc.
    destruct (p c); cbn [andb].
    + rewrite is_match_seq_eps.
      destruct (Re.nullable r), (Re.is_match (Re.deriv c r) s),
        (Re.is_match (Re.Seq (Re.Star (Re.Class p)) r) s); reflexivity.
    + rewrite is_match_seq_empty.
      destruct (Re.nullable r), (Re.is_match (Re.deriv c r) s); reflexivity.
Qed.

Lemma is_match_seq_lit (w : string) (r : Re.regex) :
  forall s,
    Re.is_match (Re.Seq (Re.Lit w) r) s
    = String.prefix w s && Re.is_match r (Str.drop (String.length w) s).
Proof.
  induction w as [|a w IH]; intros s; cbn [Re.Lit String.length].
  - rewrite is_match_seq_eps, prefix_nil_l. now destruct s.
  - rewrite is_match_seq_assoc. unfold Re.Chr at 1.
    rewrite is_match_seq_class. destruct s as [|c s]; [reflexivity|].
    rewrite prefix_cons, IH. cbn [Str.drop]. now rewrite andb_assoc.
Qed.

Lemma is_match_lit (w : string) :
  forall s, Re.is_match (Re.Lit w) s = String.prefix w s.
Proof.
  induction w as [|a w IH]; intros s; cbn [Re.Lit].
  - rewrite prefix_nil_l. now apply is_match_nullable.
  - unfold Re.Chr. rewrite is_match_seq_class.
    destruct s as [|c s]; [reflexivity|]. now rewrite prefix_cons, IH.
Qed.

Lemma prefix_app (a b s : string) :
  String.prefix (a ++ b) s
  = String.prefix a s && String.prefix b (Str.drop (String.length a) s).
Proof.
  revert s. induction a as [|x a IH]; intros s; cbn [append String.length].
  - rewrite prefix_nil_l. now destruct s.
  - destruct s as [|c s]; [reflexivity|].
    rewrite !prefix_cons, IH. cbn [Str.drop]. now rewrite andb_assoc.
Qed.

Lemma lstrip_by_ext (p q : ascii -> bool) (s : string) :
  (forall c, p c = q c) -> Str.lstrip_by p s = Str.lstrip_by q s.
Proof.
  intros H. induction s as [|c s IH]; cbn [Str.lstrip_by]; [reflexivity|].
  rewrite <- H, IH. reflexivity.
Qed.

(** Leading spaces are skipped before a pattern that cannot start with
    a space. *)
Lemma is_match_after_spaces (r : Re.regex) :
  (forall s, Re.is_match r (String " " s) = false) ->
  forall s,
    Re.is_match (Re.Seq CheckTooManySpacesAfterConstructionName.spaces r) s
    = Re.is_match r (Str.lstrip_chars " " s).
Proof.
  intros Hr s. unfold CheckTooManySpacesAfterConstructionName.spaces, Re.Chr,
    Str.lstrip_chars.
  rewrite (lstrip_by_ext _ (Ascii.eqb " "))
    by (intros c; cbn [Str.mem]; rewrite orb_false_r; apply Ascii.eqb_sym).
  induction s as [|c s IH]; rewrite is_match_seq_star_class.
  - cbn [Str.lstrip_by]. apply orb_false_r.
  - cbn [Str.lstrip_by]. destruct (Ascii.eqb " " c) eqn:E.
    + apply Ascii.eqb_eq in E. subst c. now rewrite Hr, IH.
    + cbn [andb]. apply orb_false_r.
Qed.

End MatcherLaws.

Section Construction.

Import CheckTooManySpacesAfterConstructionName.

Lemma is_match_two_spaces (s : string) :
  Re.is_match (Re.Seq (Re.Chr " ") (Re.Plus (Re.Chr " "))) s
  = String.prefix "  " s.
Proof.
  unfold Re.Plus, Re.Chr. rewrite is_match_seq_class.
  destruct s as [|c s]; [reflexivity|].
  rewrite is_match_seq_class, prefix_cons.
  destruct s as [|c' s]; [reflexivity|].
  rewrite prefix_cons, prefix_nil_l, andb_true_r.
  now rewrite (is_match_nullable (Re.Star _) s eq_refl), andb_true_r.
Qed.

Lemma is_match_keyword (s : string) :
  Re.is_match
    (Re.Seq (Re.Alt (Re.Lit "class") (Re.Lit "def"))
       (Re.Seq (Re.Chr " ") (Re.Plus (Re.Chr " ")))) s
  = String.prefix "class  " s || String.prefix "def  " s.
Proof.
  rewrite is_match_seq_alt, !is_match_seq_lit, !is_match_two_spaces.
  rewrite <- !prefix_app. reflexivity.
Qed.

Lemma pattern_spec (line : string) :
  Re.is_match pattern line
  = String.prefix "class  " (Str.lstrip_chars " " line)
    || String.prefix "def  " (Str.lstrip_chars " " line).
Proof.
  unfold pattern. rewrite is_match_after_spaces; [apply is_match_keyword|].
  intros s. rewrite is_match_keyword, !prefix_cons. reflexivity.
Qed.

Lemma group1_spec (line : string) :
  group1 line
  = if String.prefix "class" (Str.lstrip_chars " " line)
    then "class" else "def".
Proof.
  unfold group1. rewrite is_match_after_spaces; [now rewrite is_match_lit|].
  intros s. rewrite is_match_lit, prefix_cons. reflexivity.
Qed.

End Construction.

(** S007 fires on a line exactly when, after its leading spaces, the
    line goes on with [class] or [def] and at least two spaces, and its
    message names that keyword. *)
Theorem S007_fires_on_keyword_and_two_spaces (line : string)
    (st : ClassAttrs) :
  CheckTooManySpacesAfterConstructionName.check line st
  = match S007.construction line with
    | Some keyword =>
        (true,
         set_message_S007 ("Too many spaces after '" ++ keyword ++ "'") st)
    | None => (false, st)
    end.
Proof.
  unfold CheckTooManySpacesAfterConstructionName.check, S007.construction.
  rewrite pattern_spec, group1_spec. cbv zeta.
  set (rest := Str.lstrip_chars " " line).
  destruct (String.prefix "class  " rest) eqn:Eclass; cbn [orb].
  - change "class  " with ("class" ++ "  ") in Eclass.
    rewrite prefix_app in Eclass. apply andb_true_iff in Eclass.
    destruct Eclass as [-> _]. reflexivity.
  - destruct (String.prefix "def  " rest) eqn:Edef; [|reflexivity].
    destruct rest as [|c rest']; [discriminate|].
    rewrite prefix_cons in Edef. apply andb_true_iff in Edef.
    destruct Edef as [Ed _]. apply Ascii.eqb_eq in Ed. subst c.
    rewrite prefix_cons. reflexivity.
Qed.

(** ** The engines skip nothing *)

Section Completeness.

Ltac run_state :=
  unfold bind, ret, get, modify in *; cbn [fst snd] in *.

Lemma size_pos (n : node) : 0 < Ast.size n.
Proof. rewrite size_children. lia. Qed.

Lemma walk_queue_complete (fuel : nat) :
  forall todo,
    Ast.sizes todo <= fuel ->
    forall x m, In x todo -> reaches x m -> In m (Ast.walk_queue fuel todo).
Proof.
  induction fuel as [|fuel IH]; intros [|n rest] Hle x m Hx Hreach;
    try contradiction.
  - rewrite sizes_cons in Hle. pose proof (size_pos n). lia.
  - cbn [Ast.walk_queue].
    assert (Hfuel : Ast.sizes (rest ++ Ast.iter_child_nodes n) <= fuel).
    { rewrite sizes_cons, (size_children n) in Hle. rewrite sizes_app. lia. }
    destruct Hx as [<-|Hx].
    + inversion Hreach as [|? c ? Hc Hcm]; subst.
      * now left.
      * right. apply (IH _ Hfuel c m); [|exact Hcm].
        apply in_or_app. now right.
    + right. apply (IH _ Hfuel x m); [|exact Hreach].
      apply in_or_app. now left.
Qed.

Lemma walk_complete (tree m : node) : reaches tree m -> In m (Ast.walk tree).
Proof.
  intros H. unfold Ast.walk.
  apply (walk_queue_complete _ [tree]) with (x := tree); [|now left|exact H].
  rewrite sizes_cons. unfold Ast.sizes. cbn. lia.
Qed.

Lemma exec_all_complete {U : Type} (checks : list (Analyzer.Class U))
    (file : string) (obj : U) (lineno : nat) (cls : Analyzer.Class U) :
  In cls checks ->
  (forall st, fst (Analyzer.check cls obj st) = true) ->
  forall st,
    exists d,
      In d (fst (Analyzer.exec_all checks file obj lineno st))
      /\ Result.lineno d = lineno
      /\ Result.code d = Analyzer.code cls.
Proof.
  intros Hin Hfire.
  induction checks as [|c checks IH]; [contradiction|].
  intros st. cbn [Analyzer.exec_all]. run_state.
  destruct (Analyzer.exec c file obj lineno st) as [r st1] eqn:E1.
  destruct Hin as [->|Hin].
  - unfold Analyzer.exec in E1. run_state.
    pose proof (Hfire st) as Hf.
    destruct (Analyzer.check cls obj st) as [b s1]. cbn [fst] in Hf. subst b.
    injection E1 as <- <-.
    destruct (Analyzer.exec_all checks file obj lineno s1) as [rs st2].
    eexists. split; [left; reflexivity|]. split; reflexivity.
  - destruct (IH Hin st1) as (d & Hd & Hl & Hc).
    destruct (Analyzer.exec_all checks file obj lineno st1) as [rs st2].
    cbn [fst] in *. exists d. split; [|auto].
    destruct r; [right|]; exact Hd.
Qed.

Lemma scan_complete (checks : list (Analyzer.Class string)) (file : string)
    (cls : Analyzer.Class string) (line : string) :
  In cls checks ->
  (forall st, fst (Analyzer.check cls line st) = true) ->
  forall lines k i st,
    nth_error lines k = Some line ->
    exists d,
      In d (fst (LineChecker.scan checks file lines i st))
      /\ Result.lineno d = i + k
      /\ Result.code d = Analyzer.code cls.
Proof.
  intros Hin Hfire lines.
  induction lines as [|l0 lines IH]; intros k i st Hk.
  - destruct k; discriminate.
  - cbn [LineChecker.scan]. run_state.
    destruct k as [|k]; cbn [nth_error] in Hk.
    + injection Hk as ->.
      destruct (exec_all_complete checks file line i cls Hin Hfire st)
        as (d & Hd & Hl & Hc).
      destruct (Analyzer.exec_all checks file line i st) as [rs st1].
      destruct (LineChecker.scan checks file lines (S i) st1) as [rs' st2].
      cbn [fst] in *. exists d. split; [apply in_or_app; now left|].
      split; [lia | exact Hc].
    + destruct (Analyzer.exec_all checks file l0 i st) as [rs st1].
      destruct (IH k (S i) st1 Hk) as (d & Hd & Hl & Hc).
      destruct (LineChecker.scan checks file lines (S i) st1) as [rs' st2].
      cbn [fst] in *. exists d. split; [apply in_or_app; now right|].
      split; [lia | exact Hc].
Qed.

Lemma visit_complete (checks : list (Analyzer.Class node)) (file : string)
    (cls : Analyzer.Class node) (n : node) :
  In cls checks ->
  (forall st, fst (Analyzer.check cls n st) = true) ->
  Ast.is_stmt n = true ->
  forall nodes l st,
    In n nodes ->
    exists d,
      In d (fst (AstChecker.visit checks file nodes l st))
      /\ Result.lineno d = Ast.lineno n
      /\ Result.code d = Analyzer.code cls.
Proof.
  intros Hin Hfire Hstmt nodes.
  induction nodes as [|n0 nodes IH]; intros l st Hn; [contradiction|].
  cbn [AstChecker.visit]. run_state. fold (line_at n0 l).
  destruct Hn as [->|Hn].
  - destruct (exec_all_complete checks file n (line_at n l) cls Hin Hfire st)
      as (d & Hd & Hl & Hc).
    destruct (Analyzer.exec_all checks file n (line_at n l) st) as [rs st1].
    destruct (AstChecker.visit checks file nodes (line_at n l) st1)
      as [rs' st2].
    cbn [fst] in *. exists d. split; [apply in_or_app; now left|].
    split; [|exact Hc].
    rewrite Hl. unfold line_at. now rewrite Hstmt, orb_true_r.
  - destruct (Analyzer.exec_all checks file n0 (line_at n0 l) st)
      as [rs st1].
    destruct (IH (line_at n0 l) st1 Hn) as (d & Hd & Hl & Hc).
    destruct (AstChecker.visit checks file nodes (line_at n0 l) st1)
      as [rs' st2].
    cbn [fst] in *. exists d. split; [apply in_or_app; now right|].
    split; assumption.
Qed.

(** The verdict of a check on nodes does not depend on the class
    attributes. *)
Lemma node_verdict_stateless (cls : Analyzer.Class node) (n : node)
    (st st' : ClassAttrs) :
  In cls AstChecker_subclasses ->
  fst (Analyzer.check cls n st) = fst (Analyzer.check cls n st').
Proof.
  intros Hin. simpl in Hin.
  destruct Hin as [<-|[<-|[<-|[<-|[<-|[]]]]]];
    cbn [Analyzer.check stateless].
  - destruct n; try reflexivity.
    cbn [CheckClassNameShouldBeWrittenInCamelCase.check].
    destruct (Re.is_match _ name); reflexivity.
  - destruct n; try reflexivity;
      cbn [CheckFunctionNameShouldBeWrittenInSnakeCase.check];
      destruct (Re.is_match _ name); reflexivity.
  - destruct n; try reflexivity;
      cbn [CheckArgumentNameShouldBeWrittenInSnakeCase.check];
      destruct (CheckArgumentNameShouldBeWrittenInSnakeCase.first_match _);
      reflexivity.
  - unfold CheckVariableShouldBeWrittenInSnakeCase.check.
    destruct (CheckVariableShouldBeWrittenInSnakeCase.target_of n)
      as [[]|]; try reflexivity.
    destruct (Re.is_match _ id); reflexivity.
  - reflexivity.
Qed.

End Completeness.

(** The line engine skips no line: whatever checks are registered, when
    a check is positive on a line of the file whatever the class
    attributes hold, the engine returns a diagnostic with the code of
    the check and the 1-based number of that line. *)
Theorem line_engine_reports_every_positive_check
    (checks : list (Analyzer.Class string)) (file code : string)
    (st : ClassAttrs) (cls : Analyzer.Class string) (k : nat)
    (line : string) :
  nth_error (LineChecker.readlines code) k = Some line ->
  In cls checks ->
  (forall st0, fst (Analyzer.check cls line st0) = true) ->
  exists rs d,
    fst (LineChecker.execute_checks checks file code st) = Ok rs
    /\ In d rs
    /\ Result.lineno d = S k
    /\ Result.code d = Analyzer.code cls.
Proof.
  intros Hk Hin Hfire. unfold LineChecker.execute_checks, bind, ret.
  destruct (scan_complete checks file cls line Hin Hfire
              (LineChecker.readlines code) k 1 st Hk) as (d & Hd & Hl & Hc).
  destruct (LineChecker.scan checks file (LineChecker.readlines code) 1 st)
    as [rs st'].
  cbn [fst] in *. exists rs, d. repeat split; auto.
Qed.

Lemma line_engine_reports_witness :
  exists rs d,
    fst (LineChecker.execute_checks LineChecker_subclasses "c.py"
           (text Fixtures.two_assignments) initial_attrs) = Ok rs
    /\ In d rs
    /\ Result.lineno d = 1
    /\ Result.code d = "S003".
Proof.
  refine (line_engine_reports_every_positive_check LineChecker_subclasses
            "c.py" (text Fixtures.two_assignments) initial_attrs
            (stateless CheckUnnecessarySemicolon.code
               CheckUnnecessarySemicolon.message
               CheckUnnecessarySemicolon.check)
            0 ("A = 1; B = 2" ++ Fixtures.NL) _ _ _).
  - reflexivity.
  - right. right. left. reflexivity.
  - intros st0. reflexivity.
Defined.

(** The tree engine skips no node: when a check on nodes is positive on
    a node of the parsed tree, however deep, the engine returns a
    diagnostic with the code of the check and the line of that node. *)
Theorem tree_engine_reports_every_positive_check
    (ast_parse : string -> result node) (file code : string)
    (st st0 : ClassAttrs) (tree n : node) (cls : Analyzer.Class node) :
  ast_parse code = Ok tree ->
  reaches tree n ->
  In cls AstChecker_subclasses ->
  fst (Analyzer.check cls n st0) = true ->
  exists rs d,
    fst (AstChecker.execute_checks ast_parse AstChecker_subclasses
           file code st) = Ok rs
    /\ In d rs
    /\ Result.lineno d = Ast.lineno n
    /\ Result.code d = Analyzer.code cls.
Proof.
  intros Hparse Hreach Hin Hfire.
  unfold AstChecker.execute_checks. rewrite Hparse. unfold bind, ret.
  assert (Hall : forall s, fst (Analyzer.check cls n s) = true)
    by (intros s; now rewrite (node_verdict_stateless cls n s st0 Hin)).
  destruct (visit_complete AstChecker_subclasses file cls n Hin Hall
              (fires_on_statement cls n st0 Hin Hfire)
              (Ast.walk tree) 0 st (walk_complete tree n Hreach))
    as (d & Hd & Hl & Hc).
  destruct (AstChecker.visit AstChecker_subclasses file (Ast.walk tree) 0 st)
    as [rs st'].
  cbn [fst] in *. exists rs, d. repeat split; auto.
Qed.

Lemma tree_engine_reports_witness :
  exists rs d,
    fst (AstChecker.execute_checks Fixtures.ast_parse AstChecker_subclasses
           "c.py" (text Fixtures.two_assignments) initial_attrs) = Ok rs
    /\ In d rs
    /\ Result.lineno d = 1
    /\ Result.code d = "S011".
Proof.
  refine (tree_engine_reports_every_positive_check Fixtures.ast_parse "c.py"
            (text Fixtures.two_assignments) initial_attrs initial_attrs
            (ast_Module
               [ast_Assign 1 (ast_Name 1 "A" Fixtures.Store) []
                  (Fixtures.Constant 1);
                ast_Assign 1 (ast_Name 1 "B" Fixtures.Store) []
                  (Fixtures.Constant 1)])
            (ast_Assign 1 (ast_Name 1 "B" Fixtures.Store) []
               (Fixtures.Constant 1))
            {| Analyzer.code := CheckVariableShouldBeWrittenInSnakeCase.code;
               Analyzer.message := message_S011;
               Analyzer.check :=
                 CheckVariableShouldBeWrittenInSnakeCase.check |}
            _ _ _ _).
  - reflexivity.
  - apply reaches_child
      with (c := ast_Assign 1 (ast_Name 1 "B" Fixtures.Store) []
                   (Fixtures.Constant 1)).
    + right. left. reflexivity.
    + apply reaches_self.
  - right. right. right. left. reflexivity.
  - reflexivity.
Defined.

(** ** The text of a tree diagnostic *)

Section TreeMessages.

Ltac run_state :=
  unfold bind, ret, get, modify in *; cbn [fst snd] in *.

Lemma visit_In_exec (checks : list (Analyzer.Class node)) (file : string)
    (nodes : list node) :
  forall l st d,
    In d (fst (AstChecker.visit checks file nodes l st)) ->
    exists n l0 cls st0 st1,
      In n nodes /\ In cls checks
      /\ Analyzer.exec cls file n (line_at n l0) st0 = (Some d, st1).
Proof.
  induction nodes as [|n nodes IH]; intros l st d; cbn [AstChecker.visit].
  - intros [].
  - run_state. fold (line_at n l).
    destruct (Analyzer.exec_all checks file n (line_at n l) st)
      as [rs st1] eqn:E1.
    destruct (AstChecker.visit checks file nodes (line_at n l) st1)
      as [rs' st2] eqn:E2.
    cbn [fst]. rewrite in_app_iff. intros [Hin|Hin].
    + pose proof (exec_all_In_exec checks file n (line_at n l) st d) as H.
      rewrite E1 in H. destruct (H Hin) as (cls & s0 & s1 & Hc & He).
      exists n, l, cls, s0, s1. simpl. auto.
    + specialize (IH (line_at n l) st1 d). rewrite E2 in IH.
      destruct (IH Hin) as (m & l0 & cls & s0 & s1 & Hm & Hc & He).
      exists m, l0, cls, s0, s1. simpl. auto.
Qed.

Lemma node_message (cls : Analyzer.Class node) (n : node) (st : ClassAttrs) :
  In cls AstChecker_subclasses ->
  fst (Analyzer.check cls n st) = true ->
  Analyzer.message cls (snd (Analyzer.check cls n st))
  = tree_message (Analyzer.code cls) n.
Proof.
  intros Hin. simpl in Hin.
  destruct Hin as [<-|[<-|[<-|[<-|[<-|[]]]]]];
    cbn [Analyzer.check Analyzer.message Analyzer.code stateless].
  - destruct n; try discriminate.
    cbn [CheckClassNameShouldBeWrittenInCamelCase.check].
    destruct (Re.is_match _ name); [reflexivity | discriminate].
  - destruct n; try discriminate;
      cbn [CheckFunctionNameShouldBeWrittenInSnakeCase.check];
      (destruct (Re.is_match _ name); [reflexivity | discriminate]).
  - destruct n; try discriminate;
      cbn [CheckArgumentNameShouldBeWrittenInSnakeCase.check];
      rewrite first_match_find;
      cbn [tree_message];
      (destruct (find _ (args a)); [reflexivity | discriminate]).
  - unfold CheckVariableShouldBeWrittenInSnakeCase.check.
    destruct n as [ | | | | l t ts v | l t op v | l t an v | | | | | | | | | | ];
      try discriminate;
      cbn [CheckVariableShouldBeWrittenInSnakeCase.target_of];
      destruct t; try discriminate;
      (destruct (Re.is_match _ id); [reflexivity | discriminate]).
  - destruct n; try discriminate; reflexivity.
Qed.

End TreeMessages.

(** The text of a diagnostic of the tree engine describes the node that
    the diagnostic is attributed to: it is made of the path, the line of
    that node, the code, and the message of the check for that very
    node, with the name taken from it; the message attribute that a
    check assigns is read before any other check can assign it again. *)
Theorem tree_diagnostic_describes_its_node
    (ast_parse : string -> result node) (file code : string)
    (st : ClassAttrs) (tree : node) (rs : list Result.t) (d : Result.t) :
  ast_parse code = Ok tree ->
  fst (AstChecker.execute_checks ast_parse AstChecker_subclasses
         file code st) = Ok rs ->
  In d rs ->
  exists n,
    In n (Ast.walk tree)
    /\ Result.lineno d = Ast.lineno n
    /\ Result.message d
       = file ++ ": Line " ++ Str.of_nat (Ast.lineno n) ++ ": "
         ++ Result.code d ++ " " ++ tree_message (Result.code d) n.
Proof.
  intros Hparse Hrs Hd.
  unfold AstChecker.execute_checks in Hrs. rewrite Hparse in Hrs.
  unfold bind, ret in Hrs.
  pose proof (visit_In_exec AstChecker_subclasses file (Ast.walk tree) 0 st d)
    as H.
  destruct (AstChecker.visit AstChecker_subclasses file (Ast.walk tree) 0 st)
    as [rs0 st'].
  cbn [fst] in *. injection Hrs as ->.
  destruct (H Hd) as (n & l0 & cls & s0 & s1 & Hn & Hc & He).
  destruct (exec_Some _ _ _ _ _ _ _ He) as (Hf & Hl & Hcode).
  pose proof (fires_on_statement cls n s0 Hc Hf) as Hstmt.
  pose proof (exec_Some_message _ _ _ _ _ _ _ He) as Hm.
  unfold line_at in Hl, Hm. rewrite Hstmt, orb_true_r in Hl, Hm.
  exists n. repeat split; auto.
  rewrite Hm, Hcode, (node_message cls n s0 Hc Hf). reflexivity.
Qed.

Lemma tree_diagnostic_describes_witness :
  exists n,
    In n (Ast.walk (ast_Module
            [ast_Assign 1 (ast_Name 1 "A" Fixtures.Store) []
               (Fixtures.Constant 1);
             ast_Assign 1 (ast_Name 1 "B" Fixtures.Store) []
               (Fixtures.Constant 1)]))
    /\ 1 = Ast.lineno n
    /\ "c.py: Line 1: S011 Variable 'B' in function should be snake_case"
       = "c.py" ++ ": Line " ++ Str.of_nat (Ast.lineno n) ++ ": "
         ++ "S011" ++ " " ++ tree_message "S011" n.
Proof.
  refine (tree_diagnostic_describes_its_node Fixtures.ast_parse "c.py"
            (text Fixtures.two_assignments) initial_attrs _
            [ {| Result.lineno := 1; Result.code := "S011";
                 Result.message :=
                   "c.py: Line 1: S011 Variable 'A' in function should be snake_case" |};
              {| Result.lineno := 1; Result.code := "S011";
                 Result.message :=
                   "c.py: Line 1: S011 Variable 'B' in function should be snake_case" |} ]
            {| Result.lineno := 1; Result.code := "S011";
               Result.message :=
                 "c.py: Line 1: S011 Variable 'B' in function should be snake_case" |}
            _ _ _).
  - reflexivity.
  - vm_compute. reflexivity.
  - right. left. reflexivity.
Defined.
